(** * The [configs] command group of the Doppler CLI

    A shallow embedding of the two versions of [cmd/configs.go] found in the
    repository:

    - [Module Enclave]: the later file ([package cmd] importing
      [github.com/DopplerHQ/cli/pkg/...]), with create-time derivation of the
      environment, the delete confirmation prompt and the audit-log commands;
    - [Module Legacy]: the earlier file (importing [doppler-cli/api]), which
      renders tables and JSON itself and marks [--environment] as required.

    A command body is a computation in the monad [M]: it appends the calls it
    makes to its collaborators (API client, prompt, renderer, error reporter)
    to a trace and either returns, terminates the process, or panics. *)

From Stdlib Require Import String Ascii ZArith List Bool Lia DecimalString.
From stdpp Require Import base option list strings gmap.

Local Open Scope string_scope.
Local Open Scope list_scope.
Local Open Scope Z_scope.

(** ** Go values *)

(** A Go [error] value: [None] is [nil], [Some msg] an error whose [Error()]
    text is [msg]. *)
Definition error : Type := option string.

Definition errors_New (text : string) : error := Some text.

(** [strings.Index(s, substr)]: index of the first instance of [substr] in
    [s], or -1 when there is none. *)
Definition strings_Index (s substr : string) : Z :=
  match String.index 0 substr s with
  | Some i => Z.of_nat i
  | None => -1
  end.

(** [strings.Join(elems, sep)]. *)
Definition strings_Join (elems : list string) (sep : string) : string :=
  String.concat sep elems.

(** The slice expression [s[lo:hi]] on a string; out of range it panics,
    which is [None] here. *)
Definition slice (s : string) (lo hi : Z) : option string :=
  if (0 <=? lo) && (lo <=? hi) && (hi <=? Z.of_nat (String.length s))
  then Some (String.substring (Z.to_nat lo) (Z.to_nat (hi - lo)) s)
  else None.

(** ** Payloads of the API client *)

(** [api.ConfigInfo]; the fields are those the renderers read. *)
Record ConfigInfo : Type := mkConfigInfo {
  Name : string;
  Environment : string;
  Project : string;
  CreatedAt : string;
  DeployedAt : string;
  MissingVariables : list string
}.

(** Modelled from the spec: [api.Log] is declared outside the files at hand;
    an audit log entry is "identified by an opaque log id". *)
Record Log : Type := mkLog { ID : string }.

(** The error value returned by the API client, seen through what the
    commands read of it: [err.IsNil()], [err.Unwrap()] and [err.Message]. *)
Record Error : Type := mkError {
  IsNil : bool;
  Unwrap : error;
  Message : string
}.

(** The settings bundle returned by [configuration.LocalConfig(cmd)]; each
    field stands for the [.Value] of the Go field of that name. *)
Record ScopedConfig : Type := mkScopedConfig {
  APIHost : string;
  VerifyTLS : string;
  Token : string;
  Key : string;
  Project_ : string;
  Config : string
}.

(** ** Calls to the collaborators *)

(** One constructor per function of package [api]; a call to any of them is
    one request to the remote service. *)
Inductive ApiCall : Type :=
| GetConfigs (host : string) (verifyTLS : bool) (token project : string)
| GetConfig (host : string) (verifyTLS : bool) (token project config : string)
| CreateConfig (host : string) (verifyTLS : bool)
    (token project name environment : string) (defaults : bool)
| DeleteConfig (host : string) (verifyTLS : bool) (token project config : string)
| UpdateConfig (host : string) (verifyTLS : bool)
    (token project config name : string)
| GetConfigLogs (host : string) (verifyTLS : bool) (token project config : string)
| GetConfigLog (host : string) (verifyTLS : bool)
    (token project config log : string)
| RollbackConfigLog (host : string) (verifyTLS : bool)
    (token project config log : string)
| GetAPIConfigs (key project : string)
| GetAPIConfig (key project config : string)
| CreateAPIConfig (key project name environment : string) (defaults : bool)
| DeleteAPIConfig (key project config : string)
| UpdateAPIConfig (key project config name : string).

Inductive Event : Type :=
| EvApi (call : ApiCall)
| EvConfirmationPrompt (message : string) (defaultValue answer : bool)
| EvErr (e : error) (messages : list string)
| EvPrintConfigsInfo (info : list ConfigInfo) (jsonFlag : bool)
| EvPrintConfigInfo (info : ConfigInfo) (jsonFlag : bool)
| EvPrintLogs (logs : list Log) (number : Z) (jsonFlag : bool)
| EvPrintLog (log : Log) (jsonFlag : bool)
| EvPrintTable (headers : list string) (rows : list (list string))
| EvPrintln (line : string).

(** The requests of a run, in order. *)
Definition apiCalls (t : list Event) : list ApiCall :=
  omap (fun e => match e with EvApi c => Some c | _ => None end) t.

(** ** The command monad *)

Inductive Outcome (A : Type) : Type :=
| Returned (a : A)
| Exited (status : Z)
| Panicked.
Arguments Returned {A} a.
Arguments Exited {A} status.
Arguments Panicked {A}.

Definition M (A : Type) : Type := list Event * Outcome A.

#[global] Instance M_ret : MRet M := fun A a => ([], Returned a).

#[global] Instance M_bind : MBind M := fun A B k m =>
  match m with
  | (t, Returned a) => let '(t', o) := k a in (t ++ t', o)
  | (t, Exited status) => (t, Exited status)
  | (t, Panicked) => (t, Panicked)
  end.

Definition emit (e : Event) : M unit := ([e], Returned tt).

Definition panic {A : Type} : M A := ([], Panicked).

Definition os_Exit {A : Type} (status : Z) : M A := ([], Exited status).

(** A Go expression that may panic. *)
Definition orPanic {A : Type} (o : option A) : M A :=
  match o with Some a => mret a | None => panic end.

(** [if c { body }] *)
Definition when (c : bool) (body : M unit) : M unit :=
  if c then body else mret tt.

Definition trace {A : Type} (m : M A) : list Event := fst m.
Definition outcome {A : Type} (m : M A) : Outcome A := snd m.

(** Modelled from the spec: [utils.Err] lives in package [utils], outside the
    files at hand.  "On API error, reports the error's underlying cause and
    message, then terminates the process with non-zero status". *)
Definition utils_Err {A : Type} (e : error) (messages : list string) : M A :=
  _ ← emit (EvErr e messages); os_Exit 1.

(** ** Flags of a [cobra.Command] *)

Inductive Value : Type :=
| stringValue (s : string)
| boolValue (b : bool)
| intValue (n : Z).

Record Flag : Type := mkFlag {
  Shorthand : string;
  Usage : string;
  FlagValue : Value;
  Changed : bool;
  Required : bool
}.

(** A command after registration of its flags: [Flags] is the flag set,
    keyed by flag name; [Args] tells whether the positional-argument
    validator of the command accepts the arguments (returns [nil]). *)
Record Command : Type := mkCommand {
  Use : string;
  Short : string;
  Args : list string -> bool;
  Flags : gmap string Flag
}.

Definition withFlags (c : Command) (fs : gmap string Flag) : Command :=
  {| Use := Use c; Short := Short c; Args := Args c; Flags := fs |}.

Definition addFlag (name shorthand : string) (v : Value) (usage : string)
    (c : Command) : Command :=
  withFlags c (<[name := mkFlag shorthand usage v false false]> (Flags c)).

(** [c.Flags().String(name, value, usage)] and its siblings. *)
Definition Flags_String (name value usage : string) : Command -> Command :=
  addFlag name "" (stringValue value) usage.
Definition Flags_StringP (name shorthand value usage : string)
    : Command -> Command :=
  addFlag name shorthand (stringValue value) usage.
Definition Flags_Bool (name : string) (value : bool) (usage : string)
    : Command -> Command :=
  addFlag name "" (boolValue value) usage.
Definition Flags_IntP (name shorthand : string) (value : Z) (usage : string)
    : Command -> Command :=
  addFlag name shorthand (intValue value) usage.

(** [c.MarkFlagRequired(name)]; without such a flag it changes nothing. *)
Definition MarkFlagRequired (name : string) (c : Command) : Command :=
  withFlags c
    (alter (fun f => mkFlag (Shorthand f) (Usage f) (FlagValue f) (Changed f) true)
       name (Flags c)).

Definition sameKind (v v' : Value) : bool :=
  match v, v' with
  | stringValue _, stringValue _ => true
  | boolValue _, boolValue _ => true
  | intValue _, intValue _ => true
  | _, _ => false
  end.

(** Setting a flag from the command line: the flag must be registered and
    the value must parse at the flag's type; the flag is then [Changed]. *)
Definition setFlag (name : string) (v : Value) (c : Command) : option Command :=
  match Flags c !! name with
  | Some f =>
      if sameKind (FlagValue f) v
      then Some (withFlags c
                   (<[name := mkFlag (Shorthand f) (Usage f) v true (Required f)]>
                      (Flags c)))
      else None
  | None => None
  end.

(** The flags given on a command line, by name, left to right. *)
Fixpoint ParseFlags (given : list (string * Value)) (c : Command)
    : option Command :=
  match given with
  | [] => Some c
  | (name, v) :: rest =>
      match setFlag name v c with
      | Some c' => ParseFlags rest c'
      | None => None
      end
  end.

Definition Value_String (v : Value) : string :=
  match v with
  | stringValue s => s
  | boolValue true => "true"
  | boolValue false => "false"
  | intValue n => NilZero.string_of_int (Z.to_int n)
  end.

(** [cmd.Flag(name).Value.String()]; [cmd.Flag] is nil for a name that was
    never registered, and the selector then panics. *)
Definition Flag_Value_String (cmd : Command) (name : string) : M string :=
  f ← orPanic (Flags cmd !! name); mret (Value_String (FlagValue f)).

(** Modelled from the spec: [utils.GetBoolFlag] lives in package [utils],
    outside the files at hand.  The flags it is called on ([silent], [yes],
    [no-defaults], [defaults], [json]) are the boolean flags of the command
    line; it yields the flag's value. *)
Definition utils_GetBoolFlag (cmd : Command) (name : string) : M bool :=
  f ← orPanic (Flags cmd !! name);
  match FlagValue f with
  | boolValue b => mret b
  | _ => panic
  end.

(** [cobra.NoArgs] and [cobra.MaximumNArgs(n)]. *)
Definition cobra_NoArgs (args : list string) : bool :=
  Z.of_nat (length args) =? 0.
Definition cobra_MaximumNArgs (n : Z) (args : list string) : bool :=
  Z.of_nat (length args) <=? n.
(** A command declared without an [Args] field accepts any arguments. *)
Definition cobra_ArbitraryArgs (args : list string) : bool := true.

(** The names of the required flags that were not given. *)
Definition missingRequired (c : Command) : list string :=
  omap (fun '(name, f) => if Required f && negb (Changed f) then Some name else None)
       (map_to_list (Flags c)).

Definition registerAll (c : Command) (regs : list (Command -> Command))
    : Command :=
  foldl (fun c reg => reg c) c regs.

(** The errors [Execute] can hand back without running the body. *)
Inductive ExecuteError : Type :=
| FlagError
| ArgsError
| RequiredFlagsError (names : list string).

(** [cobra]'s execution of a command, as far as these commands use it: the
    flags are parsed, the positional arguments validated, the required flags
    checked, and only then is [Run] called.  The result is what [Execute]
    hands back to the program entry: [None] is [nil]. *)
Definition Execute (c : Command) (run : Command -> list string -> M unit)
    (given : list (string * Value)) (args : list string)
    : M (option ExecuteError) :=
  match ParseFlags given c with
  | None => mret (Some FlagError)
  | Some cmd =>
      if negb (Args cmd args) then mret (Some ArgsError)
      else match missingRequired cmd with
           | [] => _ ← run cmd args; mret None
           | names => mret (Some (RequiredFlagsError names))
           end
  end.

(** Modelled from the spec: the program entry, which receives the result of
    [Execute], is outside the files at hand.  "Exit code is non-zero on any
    API error or validation failure, zero otherwise (including a declined
    delete confirmation)".  A Go panic ends the process with status 2. *)
Definition exitStatus (o : Outcome (option ExecuteError)) : Z :=
  match o with
  | Returned None => 0
  | Returned (Some _) => 1
  | Exited status => status
  | Panicked => 2
  end.

(** ** The collaborators *)

(** What the world outside the command layer answers: the process-wide JSON
    mode, the resolved settings, the user at the prompt, the remote service,
    and the helpers of package [utils] whose bodies are outside the files at
    hand.  [utils.GetBool] only yields a value; [utils.GetIntFlag] either
    yields the flag's number or rejects its value with the text of an error
    ([intFlagAnswer]).  No run sends the same request twice, so an answer is
    a function of the request. *)
Record World : Type := mkWorld {
  utils_JSON : bool;
  configuration_LocalConfig : Command -> ScopedConfig;
  utils_GetBool : string -> bool -> bool;
  intFlagAnswer : Command -> string -> Z -> Z + string;
  promptAnswer : string -> bool -> bool;
  configsResult : ApiCall -> list ConfigInfo * Error;
  configResult : ApiCall -> ConfigInfo * Error;
  deleteResult : ApiCall -> Error;
  logsResult : ApiCall -> list Log * Error;
  logResult : ApiCall -> Log * Error;
  legacyConfigsResult : ApiCall -> list ConfigInfo;
  legacyConfigResult : ApiCall -> ConfigInfo;
  json_Marshal_configs : list ConfigInfo -> string * error;
  json_Marshal_config : ConfigInfo -> string * error
}.

Section Collaborators.
Variable w : World.

Definition call {A : Type} (result : World -> ApiCall -> A) (c : ApiCall)
    : M A :=
  _ ← emit (EvApi c); mret (result w c).

(** Package [api] of the later file. *)
Definition api_GetConfigs host verifyTLS token project :=
  call configsResult (GetConfigs host verifyTLS token project).
Definition api_GetConfig host verifyTLS token project config :=
  call configResult (GetConfig host verifyTLS token project config).
Definition api_CreateConfig host verifyTLS token project name environment defaults :=
  call configResult
    (CreateConfig host verifyTLS token project name environment defaults).
Definition api_DeleteConfig host verifyTLS token project config :=
  call deleteResult (DeleteConfig host verifyTLS token project config).
Definition api_UpdateConfig host verifyTLS token project config name :=
  call configResult (UpdateConfig host verifyTLS token project config name).
Definition api_GetConfigLogs host verifyTLS token project config :=
  call logsResult (GetConfigLogs host verifyTLS token project config).
Definition api_GetConfigLog host verifyTLS token project config log :=
  call logResult (GetConfigLog host verifyTLS token project config log).
Definition api_RollbackConfigLog host verifyTLS token project config log :=
  call logResult (RollbackConfigLog host verifyTLS token project config log).

(** Package [api] of the earlier file.  Every caller discards the first
    component of the result, so only the payload is kept here; the result
    of [DeleteAPIConfig] is discarded whole. *)
Definition api_GetAPIConfigs (cmd : Command) key project :=
  call legacyConfigsResult (GetAPIConfigs key project).
Definition api_GetAPIConfig (cmd : Command) key project config :=
  call legacyConfigResult (GetAPIConfig key project config).
Definition api_CreateAPIConfig (cmd : Command) key project name environment defaults :=
  call legacyConfigResult (CreateAPIConfig key project name environment defaults).
Definition api_DeleteAPIConfig (cmd : Command) key project config : M unit :=
  call (fun _ _ => tt) (DeleteAPIConfig key project config).
Definition api_UpdateAPIConfig (cmd : Command) key project config name :=
  call legacyConfigResult (UpdateAPIConfig key project config name).

(** [utils.GetIntFlag(cmd, name, bits)], whose body is outside the files at
    hand: it yields the number of the flag, or, when it rejects the flag's
    value (the body of logs asks for an integer of 16 bits), reports the
    error through [utils.Err], which ends the process. *)
Definition utils_GetIntFlag (cmd : Command) (name : string) (bits : Z) : M Z :=
  match intFlagAnswer w cmd name bits with
  | inl number => mret number
  | inr text => utils_Err (Some text) []
  end.

(** [utils.ConfirmationPrompt(message, defaultValue)] *)
Definition utils_ConfirmationPrompt (message : string) (defaultValue : bool)
    : M bool :=
  let answer := promptAnswer w message defaultValue in
  _ ← emit (EvConfirmationPrompt message defaultValue answer); mret answer.

(** The renderers of package [utils]. *)
Definition utils_PrintConfigsInfo (info : list ConfigInfo) (jsonFlag : bool)
    : M unit := emit (EvPrintConfigsInfo info jsonFlag).
Definition utils_PrintConfigInfo (info : ConfigInfo) (jsonFlag : bool)
    : M unit := emit (EvPrintConfigInfo info jsonFlag).
Definition utils_PrintLogs (logs : list Log) (number : Z) (jsonFlag : bool)
    : M unit := emit (EvPrintLogs logs number jsonFlag).
Definition utils_PrintLog (log : Log) (jsonFlag : bool)
    : M unit := emit (EvPrintLog log jsonFlag).
Definition utils_PrintTable (headers : list string) (rows : list (list string))
    : M unit := emit (EvPrintTable headers rows).
Definition fmt_Println (line : string) : M unit := emit (EvPrintln line).
End Collaborators.

(** ** The later file *)

Module Enclave.
Section Run.
Variable w : World.

(** [if !err.IsNil() { utils.Err(err.Unwrap(), err.Message) }] *)
Definition check (err : Error) : M unit :=
  when (negb (IsNil err)) (utils_Err (Unwrap err) [Message err]).

Definition configsCmd_Run (cmd : Command) (args : list string) : M unit :=
  let jsonFlag := utils_JSON w in
  let localConfig := configuration_LocalConfig w cmd in
  '(configs, err) ← api_GetConfigs w (APIHost localConfig)
      (utils_GetBool w (VerifyTLS localConfig) true) (Token localConfig)
      (Project_ localConfig);
  _ ← check err;
  utils_PrintConfigsInfo configs jsonFlag.

Definition configsGetCmd_Run (cmd : Command) (args : list string) : M unit :=
  let jsonFlag := utils_JSON w in
  let localConfig := configuration_LocalConfig w cmd in
  let config := Config localConfig in
  config ← (if 0 <? Z.of_nat (length args) then orPanic (args !! 0%nat)
            else mret config);
  '(configInfo, err) ← api_GetConfig w (APIHost localConfig)
      (utils_GetBool w (VerifyTLS localConfig) true) (Token localConfig)
      (Project_ localConfig) config;
  _ ← check err;
  utils_PrintConfigInfo configInfo jsonFlag.

(** The derivation step in the body of [configsCreateCmd]:
    [if environment == "" && strings.Index(name, "_") != -1 {
       environment = name[0:strings.Index(name, "_")] }];
    the result is the value of [environment] after it. *)
Definition deriveEnvironment (environment name : string) : M string :=
  if (environment =? "")%string && negb (strings_Index name "_" =? -1)
  then orPanic (slice name 0 (strings_Index name "_"))
  else mret environment.

Definition configsCreateCmd_Run (cmd : Command) (args : list string) : M unit :=
  let jsonFlag := utils_JSON w in
  silent ← utils_GetBoolFlag cmd "silent";
  noDefaults ← utils_GetBoolFlag cmd "no-defaults";
  let defaults := negb noDefaults in
  environment ← Flag_Value_String cmd "environment";
  name ← Flag_Value_String cmd "name";
  name ← (if 0 <? Z.of_nat (length args) then orPanic (args !! 0%nat)
          else mret name);
  _ ← when (name =? "")%string
        (utils_Err (errors_New "you must specify a name") []);
  environment ← deriveEnvironment environment name;
  _ ← when (environment =? "")%string
        (utils_Err (errors_New "you must specify an environment") []);
  let localConfig := configuration_LocalConfig w cmd in
  '(info, err) ← api_CreateConfig w (APIHost localConfig)
      (utils_GetBool w (VerifyTLS localConfig) true) (Token localConfig)
      (Project_ localConfig) name environment defaults;
  _ ← check err;
  when (negb silent) (utils_PrintConfigInfo info jsonFlag).

Definition configsDeleteCmd_Run (cmd : Command) (args : list string) : M unit :=
  let jsonFlag := utils_JSON w in
  silent ← utils_GetBoolFlag cmd "silent";
  yes ← utils_GetBoolFlag cmd "yes";
  let localConfig := configuration_LocalConfig w cmd in
  let config := Config localConfig in
  config ← (if 0 <? Z.of_nat (length args) then orPanic (args !! 0%nat)
            else mret config);
  confirmed ← (if (yes : bool) then mret true
               else utils_ConfirmationPrompt w ("Delete config " +:+ config) false);
  when confirmed (
    err ← api_DeleteConfig w (APIHost localConfig)
        (utils_GetBool w (VerifyTLS localConfig) true) (Token localConfig)
        (Project_ localConfig) config;
    _ ← check err;
    when (negb silent) (
      '(configs, err) ← api_GetConfigs w (APIHost localConfig)
          (utils_GetBool w (VerifyTLS localConfig) true) (Token localConfig)
          (Project_ localConfig);
      _ ← check err;
      utils_PrintConfigsInfo configs jsonFlag)).

Definition configsUpdateCmd_Run (cmd : Command) (args : list string) : M unit :=
  let jsonFlag := utils_JSON w in
  silent ← utils_GetBoolFlag cmd "silent";
  name ← Flag_Value_String cmd "name";
  let localConfig := configuration_LocalConfig w cmd in
  let config := Config localConfig in
  config ← (if 0 <? Z.of_nat (length args) then orPanic (args !! 0%nat)
            else mret config);
  '(info, err) ← api_UpdateConfig w (APIHost localConfig)
      (utils_GetBool w (VerifyTLS localConfig) true) (Token localConfig)
      (Project_ localConfig) config name;
  _ ← check err;
  when (negb silent) (utils_PrintConfigInfo info jsonFlag).

Definition configsLogsCmd_Run (cmd : Command) (args : list string) : M unit :=
  let jsonFlag := utils_JSON w in
  let localConfig := configuration_LocalConfig w cmd in
  number ← utils_GetIntFlag w cmd "number" 16;
  '(logs, err) ← api_GetConfigLogs w (APIHost localConfig)
      (utils_GetBool w (VerifyTLS localConfig) true) (Token localConfig)
      (Project_ localConfig) (Config localConfig);
  _ ← check err;
  utils_PrintLogs logs number jsonFlag.

Definition configsLogsGetCmd_Run (cmd : Command) (args : list string) : M unit :=
  let jsonFlag := utils_JSON w in
  let localConfig := configuration_LocalConfig w cmd in
  log ← Flag_Value_String cmd "log";
  log ← (if 0 <? Z.of_nat (length args) then orPanic (args !! 0%nat)
         else mret log);
  '(configLog, err) ← api_GetConfigLog w (APIHost localConfig)
      (utils_GetBool w (VerifyTLS localConfig) true) (Token localConfig)
      (Project_ localConfig) (Config localConfig) log;
  _ ← check err;
  utils_PrintLog configLog jsonFlag.

Definition configsLogsRollbackCmd_Run (cmd : Command) (args : list string)
    : M unit :=
  let jsonFlag := utils_JSON w in
  silent ← utils_GetBoolFlag cmd "silent";
  let localConfig := configuration_LocalConfig w cmd in
  log ← Flag_Value_String cmd "log";
  log ← (if 0 <? Z.of_nat (length args) then orPanic (args !! 0%nat)
         else mret log);
  '(configLog, err) ← api_RollbackConfigLog w (APIHost localConfig)
      (utils_GetBool w (VerifyTLS localConfig) true) (Token localConfig)
      (Project_ localConfig) (Config localConfig) log;
  _ ← check err;
  when (negb silent) (utils_PrintLog configLog jsonFlag).
End Run.

(** The command values as declared, before [init] runs. *)
Definition declare (use short : string) (args : list string -> bool)
    : Command :=
  {| Use := use; Short := short; Args := args; Flags := ∅ |}.

(** [init]: the flags each command ends up with. *)
Definition configsCmd : Command :=
  registerAll (declare "configs" "List Enclave configs" cobra_NoArgs)
    [Flags_StringP "project" "p" "" "enclave project (e.g. backend)"].

Definition configsGetCmd : Command :=
  registerAll (declare "get [config]" "Get info for a config" (cobra_MaximumNArgs 1))
    [Flags_StringP "project" "p" "" "enclave project (e.g. backend)";
     Flags_StringP "config" "c" "" "enclave config (e.g. dev)"].

Definition configsCreateCmd : Command :=
  registerAll (declare "create [name]" "Create a config" (cobra_MaximumNArgs 1))
    [Flags_StringP "project" "p" "" "enclave project (e.g. backend)";
     Flags_String "name" "" "config name";
     Flags_StringP "environment" "e" "" "config environment";
     Flags_Bool "no-defaults" false
       "don't populate config with environment's default secrets";
     Flags_Bool "silent" false "don't output the response"].

Definition configsUpdateCmd : Command :=
  registerAll (declare "update [config]" "Update a config" (cobra_MaximumNArgs 1))
    [Flags_StringP "project" "p" "" "enclave project (e.g. backend)";
     Flags_StringP "config" "c" "" "enclave config (e.g. dev)";
     Flags_String "name" "" "config name";
     Flags_Bool "silent" false "don't output the response";
     MarkFlagRequired "name"].

Definition configsDeleteCmd : Command :=
  registerAll (declare "delete [config]" "Delete a config" (cobra_MaximumNArgs 1))
    [Flags_StringP "project" "p" "" "enclave project (e.g. backend)";
     Flags_StringP "config" "c" "" "enclave config (e.g. dev)";
     Flags_Bool "silent" false "don't output the response";
     Flags_Bool "yes" false "proceed without confirmation"].

Definition configsLogsCmd : Command :=
  registerAll (declare "logs" "List config audit logs" cobra_NoArgs)
    [Flags_StringP "project" "p" "" "enclave project (e.g. backend)";
     Flags_StringP "config" "c" "" "enclave config (e.g. dev)";
     Flags_IntP "number" "n" 5 "max number of logs to display"].

Definition configsLogsGetCmd : Command :=
  registerAll (declare "get [log_id]" "Get config audit log" (cobra_MaximumNArgs 1))
    [Flags_String "log" "" "audit log id";
     Flags_StringP "project" "p" "" "enclave project (e.g. backend)";
     Flags_StringP "config" "c" "" "enclave config (e.g. dev)"].

Definition configsLogsRollbackCmd : Command :=
  registerAll
    (declare "rollback [log_id]" "Rollback a config change" (cobra_MaximumNArgs 1))
    [Flags_String "log" "" "audit log id";
     Flags_StringP "project" "p" "" "enclave project (e.g. backend)";
     Flags_StringP "config" "c" "" "enclave config (e.g. dev)";
     Flags_Bool "silent" false "don't output the response"].
End Enclave.

(** ** The earlier file *)

Module Legacy.
Section Run.
Variable w : World.

(** The row both renderers build for a record, and the headers they pass to
    [utils.PrintTable]. *)
Definition configRow (configInfo : ConfigInfo) : list string :=
  [Name configInfo; strings_Join (MissingVariables configInfo) ", ";
   DeployedAt configInfo; CreatedAt configInfo; Environment configInfo;
   Project configInfo].

Definition tableHeaders : list string :=
  ["name"; "missing_variables"; "deployed_at"; "created_at"; "stage"; "project"].

Definition printConfigsInfo (info : list ConfigInfo) (jsonFlag : bool) : M unit :=
  if jsonFlag then
    let '(resp, err) := json_Marshal_configs w info in
    _ ← when (bool_decide (err ≠ None)) (utils_Err err []);
    fmt_Println resp
  else
    let rows := foldl (fun rows configInfo => rows ++ [configRow configInfo]) [] info in
    utils_PrintTable tableHeaders rows.

Definition printConfigInfo (info : ConfigInfo) (jsonFlag : bool) : M unit :=
  if jsonFlag then
    let '(resp, err) := json_Marshal_config w info in
    _ ← when (bool_decide (err ≠ None)) (utils_Err err []);
    fmt_Println resp
  else
    let rows := [configRow info] in
    utils_PrintTable tableHeaders rows.

Definition configsCmd_Run (cmd : Command) (args : list string) : M unit :=
  jsonFlag ← utils_GetBoolFlag cmd "json";
  let localConfig := configuration_LocalConfig w cmd in
  configs ← api_GetAPIConfigs w cmd (Key localConfig) (Project_ localConfig);
  printConfigsInfo configs jsonFlag.

Definition configsGetCmd_Run (cmd : Command) (args : list string) : M unit :=
  jsonFlag ← utils_GetBoolFlag cmd "json";
  let localConfig := configuration_LocalConfig w cmd in
  let config := Config localConfig in
  config ← (if 0 <? Z.of_nat (length args) then orPanic (args !! 0%nat)
            else mret config);
  configInfo ← api_GetAPIConfig w cmd (Key localConfig)
      (Project_ localConfig) config;
  printConfigInfo configInfo jsonFlag.

Definition configsCreateCmd_Run (cmd : Command) (args : list string) : M unit :=
  jsonFlag ← utils_GetBoolFlag cmd "json";
  silent ← utils_GetBoolFlag cmd "silent";
  defaults ← utils_GetBoolFlag cmd "defaults";
  environment ← Flag_Value_String cmd "environment";
  name ← Flag_Value_String cmd "name";
  name ← (if 0 <? Z.of_nat (length args) then orPanic (args !! 0%nat)
          else mret name);
  let localConfig := configuration_LocalConfig w cmd in
  info ← api_CreateAPIConfig w cmd (Key localConfig)
      (Project_ localConfig) name environment defaults;
  when (negb silent) (printConfigInfo info jsonFlag).

Definition configsDeleteCmd_Run (cmd : Command) (args : list string) : M unit :=
  jsonFlag ← utils_GetBoolFlag cmd "json";
  silent ← utils_GetBoolFlag cmd "silent";
  let localConfig := configuration_LocalConfig w cmd in
  let config := Config localConfig in
  config ← (if 0 <? Z.of_nat (length args) then orPanic (args !! 0%nat)
            else mret config);
  _ ← api_DeleteAPIConfig w cmd (Key localConfig) (Project_ localConfig) config;
  when (negb silent) (
    configs ← api_GetAPIConfigs w cmd (Key localConfig)
        (Project_ localConfig);
    printConfigsInfo configs jsonFlag).

Definition configsUpdateCmd_Run (cmd : Command) (args : list string) : M unit :=
  jsonFlag ← utils_GetBoolFlag cmd "json";
  silent ← utils_GetBoolFlag cmd "silent";
  name ← Flag_Value_String cmd "name";
  let localConfig := configuration_LocalConfig w cmd in
  let config := Config localConfig in
  config ← (if 0 <? Z.of_nat (length args) then orPanic (args !! 0%nat)
            else mret config);
  info ← api_UpdateAPIConfig w cmd (Key localConfig)
      (Project_ localConfig) config name;
  when (negb silent) (printConfigInfo info jsonFlag).
End Run.

Definition declare (use short : string) : Command :=
  {| Use := use; Short := short; Args := cobra_ArbitraryArgs; Flags := ∅ |}.

(** [init] *)
Definition configsCmd : Command :=
  registerAll (declare "configs" "List configs")
    [Flags_String "project" "" "doppler project (e.g. backend)";
     Flags_Bool "json" false "output json"].

Definition configsGetCmd : Command :=
  registerAll (declare "get [config]" "Get info for a config")
    [Flags_String "project" "" "doppler project (e.g. backend)";
     Flags_String "config" "" "doppler config (e.g. dev)";
     Flags_Bool "json" false "output json"].

Definition configsCreateCmd : Command :=
  registerAll (declare "create [name]" "Create a config")
    [Flags_String "project" "" "doppler project (e.g. backend)";
     Flags_String "name" "" "config name";
     Flags_String "environment" "" "config environment";
     Flags_Bool "defaults" true "populate config with environment's default secrets";
     Flags_Bool "json" false "output json";
     Flags_Bool "silent" false "don't output the response";
     MarkFlagRequired "environment"].

Definition configsUpdateCmd : Command :=
  registerAll (declare "update [config]" "Update a config")
    [Flags_String "project" "" "doppler project (e.g. backend)";
     Flags_String "config" "" "doppler config (e.g. dev)";
     Flags_String "name" "" "config name";
     Flags_Bool "json" false "output json";
     Flags_Bool "silent" false "don't output the response";
     MarkFlagRequired "name"].

Definition configsDeleteCmd : Command :=
  registerAll (declare "delete [config]" "Delete a config")
    [Flags_String "project" "" "doppler project (e.g. backend)";
     Flags_String "config" "" "doppler config (e.g. dev)";
     Flags_Bool "json" false "output json";
     Flags_Bool "silent" false "don't output the response"].
End Legacy.

(** * Specification-side notions *)

(** [s] contains the byte [c]. *)
Fixpoint hasChar (c : ascii) (s : string) : bool :=
  match s with
  | EmptyString => false
  | String a s' => Ascii.eqb a c || hasChar c s'
  end.

(** The part of [s] strictly before its first [c]; all of [s] if there is
    none. *)
Fixpoint before (c : ascii) (s : string) : string :=
  match s with
  | EmptyString => EmptyString
  | String a s' => if Ascii.eqb a c then EmptyString else String a (before c s')
  end.

(** The value a positional argument resolves to: the first argument when
    there is one, else the fallback. *)
Definition resolved (args : list string) (fallback : string) : string :=
  hd fallback args.

(** The flag values of a command, read without effects. *)
Definition flagString (cmd : Command) (name : string) : string :=
  match Flags cmd !! name with
  | Some f => Value_String (FlagValue f)
  | None => ""
  end.

Definition flagBool (cmd : Command) (name : string) : bool :=
  match Flags cmd !! name with
  | Some f => match FlagValue f with boolValue b => b | _ => false end
  | None => false
  end.

(** [name] is registered in [c] with a value of the kind of [v]. *)
Definition registered (c : Command) (name : string) (v : Value) : Prop :=
  exists f, Flags c !! name = Some f /\ sameKind v (FlagValue f) = true.

(** The environment create-config ends up with: the flag when it is not
    empty, else what precedes the first underscore of a name that has one. *)
Definition derivedEnvironment (environment name : string) : string :=
  if (environment =? "")%string
  then (if hasChar "_" name then before "_" name else "")
  else environment.

(** No flag of [c] is marked as required. *)
Definition noRequired (c : Command) : Prop :=
  map_Forall (fun _ f => Required f = false) (Flags c).

(** The connection settings every request of the later file carries. *)
Definition verify (w : World) (cmd : Command) : bool :=
  utils_GetBool w (VerifyTLS (configuration_LocalConfig w cmd)) true.

(** The command a command line leaves behind in the examples ([c] itself if
    the line does not parse). *)
Definition parsedCommand (given : list (string * Value)) (c : Command) : Command :=
  default c (ParseFlags given c).


(** ** A concrete world, for running the commands on examples *)

Definition exampleSettings : ScopedConfig :=
  {| APIHost := "https://api.doppler.com"; VerifyTLS := "true";
     Token := "token"; Key := "key"; Project_ := "backend"; Config := "dev" |}.

Definition noError : Error := mkError true None "".
Definition apiFailure : Error :=
  mkError false (Some "404 Not Found") "Unable to reach the config".

Definition exampleConfig : ConfigInfo :=
  mkConfigInfo "dev" "dev" "backend" "2019-10-01" "2019-10-02" ["API_KEY"; "DB_URL"].

(** A serialization standing in for [encoding/json] in examples:
    a length is written in unary, a string after its length, a list after its
    length.  Each writer takes what follows it in the output. *)
Fixpoint unary (n : nat) (k : string) : string :=
  match n with
  | O => String "0" k
  | S n => String "1" (unary n k)
  end.

Definition putString (s k : string) : string := unary (String.length s) (s +:+ k).

Definition putStrings (l : list string) (k : string) : string :=
  foldr putString k l.

Definition putConfig (c : ConfigInfo) (k : string) : string :=
  putString (Name c) (putString (Environment c) (putString (Project c)
    (putString (CreatedAt c) (putString (DeployedAt c)
      (unary (length (MissingVariables c)) (putStrings (MissingVariables c) k)))))).

Definition putConfigs (l : list ConfigInfo) (k : string) : string :=
  foldr putConfig k l.

Definition exampleMarshal_config (c : ConfigInfo) : string * error :=
  (putConfig c "", None).
Definition exampleMarshal_configs (l : list ConfigInfo) : string * error :=
  (unary (length l) (putConfigs l ""), None).

(** [utils.GetIntFlag] in the examples: the value of the registered integer
    flag when it fits an integer of [bits] bits, else a rejection. *)
Definition exampleIntFlag (cmd : Command) (name : string) (bits : Z) : Z + string :=
  match Flags cmd !! name with
  | Some f =>
      match FlagValue f with
      | intValue n =>
          if (- 2 ^ (bits - 1) <=? n) && (n <? 2 ^ (bits - 1)) then inl n
          else inr "value out of range"
      | _ => inr "invalid syntax"
      end
  | None => inr "invalid syntax"
  end.

(** The world of the examples: the user answers [answer] at the prompt and
    every request comes back with [err]. *)
Definition exampleWorld (answer : bool) (err : Error) : World :=
  {| utils_JSON := false;
     configuration_LocalConfig := fun _ => exampleSettings;
     utils_GetBool := fun _ defaultValue => defaultValue;
     intFlagAnswer := exampleIntFlag;
     promptAnswer := fun _ _ => answer;
     configsResult := fun _ => ([exampleConfig], err);
     configResult := fun _ => (exampleConfig, err);
     deleteResult := fun _ => err;
     logsResult := fun _ => ([mkLog "log-1"], err);
     logResult := fun _ => (mkLog "log-1", err);
     legacyConfigsResult := fun _ => [exampleConfig];
     legacyConfigResult := fun _ => exampleConfig;
     json_Marshal_configs := exampleMarshal_configs;
     json_Marshal_config := exampleMarshal_config |}.

(** ** Observations on a run *)

Definition isErr (e : Event) : bool :=
  match e with EvErr _ _ => true | _ => false end.

Definition isPrompt (e : Event) : bool :=
  match e with EvConfirmationPrompt _ _ _ => true | _ => false end.

(** The events that put a result on the terminal. *)
Definition isRender (e : Event) : bool :=
  match e with
  | EvPrintConfigsInfo _ _ | EvPrintConfigInfo _ _ | EvPrintLogs _ _ _
  | EvPrintLog _ _ | EvPrintTable _ _ | EvPrintln _ => true
  | _ => false
  end.

(** A run either returns without having reported an error, or exits with
    status 1 right after its only error report, having rendered nothing. *)
Definition endsCleanly (m : M unit) : Prop :=
  (outcome m = Returned tt /\ filter isErr (trace m) = [])
  \/ (outcome m = Exited 1
      /\ exists t e messages,
           trace m = t ++ [EvErr e messages]
           /\ filter isErr t = [] /\ filter isRender t = []).

(** [Execute] stopped the command before its body: nothing happened and the
    process ends with status 1. *)
Definition rejected (m : M (option ExecuteError)) : Prop :=
  trace m = [] /\ exitStatus (outcome m) = 1.

(** The world of the examples with a [json.Marshal] that fails. *)
Definition brokenMarshalWorld : World :=
  let w := exampleWorld false noError in
  {| utils_JSON := utils_JSON w;
     configuration_LocalConfig := configuration_LocalConfig w;
     utils_GetBool := utils_GetBool w;
     intFlagAnswer := intFlagAnswer w;
     promptAnswer := promptAnswer w;
     configsResult := configsResult w;
     configResult := configResult w;
     deleteResult := deleteResult w;
     logsResult := logsResult w;
     logResult := logResult w;
     legacyConfigsResult := legacyConfigsResult w;
     legacyConfigResult := legacyConfigResult w;
     json_Marshal_configs := fun _ => ("", Some "json: unsupported value");
     json_Marshal_config := fun _ => ("", Some "json: unsupported value") |}.

(** ** The release script

    The shell script that follows the Go source in the later file.  A step
    is a line written by [echo] or an invocation of [git]; the host tells
    what [git status --porcelain] prints and the exit status of each [git]
    invocation.  The script runs under [set -e]. *)

Module Release.

Inductive Step : Type :=
| Echo (line : string)
| Git (args : list string).

Record Host : Type := mkHost {
  porcelain : string;
  gitExit : list string -> Z
}.

Definition Sh : Type := list Step * Outcome unit.

Definition skip : Sh := ([], Returned tt).

(** [a; b]: [b] runs when [a] has not ended the script. *)
Definition seq (a b : Sh) : Sh :=
  match a with
  | (t, Returned _) => (t ++ b.1, b.2)
  | (t, o) => (t, o)
  end.

Definition echo (line : string) : Sh := ([Echo line], Returned tt).

Definition exit (status : Z) : Sh := ([], Exited status).

(** A [git] invocation as a simple command: under [set -e] a status other
    than 0 ends the script with that status. *)
Definition git (h : Host) (args : list string) : Sh :=
  ([Git args], if gitExit h args =? 0 then Returned tt else Exited (gitExit h args)).

Definition newline : ascii := Ascii.ascii_of_nat 10.

(** Command substitution drops the trailing newlines of the output. *)
Fixpoint stripTrailingNewlines (s : string) : string :=
  match s with
  | EmptyString => EmptyString
  | String c r =>
      match stripTrailingNewlines r with
      | EmptyString => if Ascii.eqb c newline then EmptyString else String c EmptyString
      | r' => String c r'
      end
  end.

(** [$(git status --porcelain)]: the command runs, its status is not
    looked at. *)
Definition gitStatusPorcelain (h : Host) : list Step * string :=
  ([Git ["status"; "--porcelain"]], stripTrailingNewlines (porcelain h)).

(** The script, called with the arguments [argv]. *)
Definition release (h : Host) (argv : list string) : Sh :=
  let '(t, status) := gitStatusPorcelain h in
  seq (t, Returned tt)
  (seq (if negb (status =? "")%string
        then seq (echo "The git workspace must be clean") (exit 1)
        else skip)
  (seq (if Z.of_nat (length argv) =? 0
        then seq (echo "You must specify a version") (exit 1)
        else skip)
  (let TAGNAME := nth 0 argv "" in
   seq (if (String.substring 0 1 TAGNAME =? "v")%string
        then seq (echo "Version is incorrect; must match format X.Y.Z") (exit 1)
        else skip)
  (let VERSION := "v" +:+ TAGNAME in
   seq (echo ("Using version " +:+ VERSION))
  (seq (git h ["push"])
  (seq (git h ["tag"; "-a"; VERSION; "-m"; VERSION])
       (git h ["push"; "origin"; VERSION]))))))).

(** The [git] invocations of a run that change the repository or the
    remote: everything but [git status]. *)
Definition changes (t : list Step) : list (list string) :=
  omap (fun s => match s with
                 | Git ("status" :: _) => None
                 | Git args => Some args
                 | Echo _ => None
                 end) t.

Definition exitStatus (o : Outcome unit) : Z :=
  match o with
  | Returned _ => 0
  | Exited status => status
  | Panicked => 2
  end.

(** A host for the examples: a clean workspace where every [git] succeeds. *)
Definition exampleHost : Host := {| porcelain := ""; gitExit := fun _ => 0 |}.

End Release.

(** * Lemmas *)

(** ** The monad *)

Lemma bind_ret {A B : Type} (a : A) (k : A -> M B) : mret a ≫= k = k a.
Proof. unfold mret, M_ret, mbind, M_bind. by destruct (k a). Qed.

Lemma bind_Err {A B : Type} (e : error) (messages : list string) (k : A -> M B) :
  utils_Err e messages ≫= k = ([EvErr e messages], Exited 1).
Proof. reflexivity. Qed.

Lemma bind_call {A B : Type} w (result : World -> ApiCall -> A) c (k : A -> M B) :
  call w result c ≫= k = (EvApi c :: trace (k (result w c)), outcome (k (result w c))).
Proof.
  unfold call, emit, mbind, M_bind, mret, M_ret, trace, outcome. simpl.
  by destruct (k (result w c)).
Qed.

(** ** Strings *)

Lemma index_char_cons (c a : ascii) (s : string) :
  String.index 0 (String c "") (String a s) =
  if Ascii.eqb a c then Some 0%nat
  else match String.index 0 (String c "") s with
       | Some n => Some (S n)
       | None => None
       end.
Proof.
  Local Transparent String.prefix.
  simpl. destruct (ascii_dec c a) as [->|Hne].
  - rewrite Ascii.eqb_refl. by destruct s.
  - destruct (Ascii.eqb_spec a c); [congruence | done].
Qed.

Lemma index_hasChar (c : ascii) (s : string) :
  hasChar c s = true ->
  String.index 0 (String c "") s = Some (String.length (before c s)).
Proof.
  induction s as [|a s IH]; [done|].
  intros H. rewrite index_char_cons. simpl in *.
  destruct (Ascii.eqb a c); [done|]. simpl in H. by rewrite IH.
Qed.

Lemma index_not_hasChar (c : ascii) (s : string) :
  hasChar c s = false -> String.index 0 (String c "") s = None.
Proof.
  induction s as [|a s IH]; [done|].
  intros H. rewrite index_char_cons. simpl in H.
  destruct (Ascii.eqb a c); [done|]. simpl in H. by rewrite IH.
Qed.

Lemma strings_Index_hasChar (c : ascii) (s : string) :
  hasChar c s = true ->
  strings_Index s (String c "") = Z.of_nat (String.length (before c s)).
Proof. intros H. unfold strings_Index. by rewrite index_hasChar. Qed.

Lemma strings_Index_not_hasChar (c : ascii) (s : string) :
  hasChar c s = false -> strings_Index s (String c "") = -1.
Proof. intros H. unfold strings_Index. by rewrite index_not_hasChar. Qed.

Lemma before_length (c : ascii) (s : string) :
  (String.length (before c s) <= String.length s)%nat.
Proof. induction s as [|a s IH]; simpl; [lia|]. destruct (Ascii.eqb a c); simpl; lia. Qed.

Lemma substring_before (c : ascii) (s : string) :
  String.substring 0 (String.length (before c s)) s = before c s.
Proof.
  induction s as [|a s IH]; [done|]. simpl.
  destruct (Ascii.eqb a c); simpl; [done | by rewrite IH].
Qed.

Lemma slice_before (c : ascii) (s : string) :
  slice s 0 (Z.of_nat (String.length (before c s))) = Some (before c s).
Proof.
  unfold slice. pose proof (before_length c s).
  replace (0 <=? 0) with true by done.
  replace (0 <=? Z.of_nat _) with true by (symmetry; apply Z.leb_le; lia).
  replace (Z.of_nat _ <=? Z.of_nat _) with true by (symmetry; apply Z.leb_le; lia).
  simpl. rewrite Z.sub_0_r, Nat2Z.id. by rewrite substring_before.
Qed.

(** [before] and [hasChar] say what they should: a string that contains [c]
    splits at its first [c]. *)
Lemma before_split (c : ascii) (s : string) :
  hasChar c s = true ->
  exists rest, s = before c s +:+ String c rest /\ hasChar c (before c s) = false.
Proof.
  induction s as [|a s IH]; [done|]. simpl.
  destruct (Ascii.eqb_spec a c) as [->|Hne]; simpl.
  - intros _. by exists s.
  - intros H. destruct (IH H) as (rest & Heq & Hno). exists rest. split.
    + change (String a s = String a (before c s +:+ String c rest)).
      by f_equal.
    + destruct (Ascii.eqb_spec a c); [congruence | done].
Qed.

Lemma before_unique (c : ascii) (pre rest : string) :
  hasChar c pre = false -> before c (pre +:+ String c rest) = pre.
Proof.
  induction pre as [|a pre IH]; simpl.
  - by rewrite Ascii.eqb_refl.
  - destruct (Ascii.eqb a c); simpl; [done|]. intros H. by rewrite IH.
Qed.

(** ** Flags *)

Lemma sameKind_trans (v1 v2 v3 : Value) :
  sameKind v1 v2 = true -> sameKind v2 v3 = true -> sameKind v1 v3 = true.
Proof. by destruct v1, v2, v3. Qed.

Lemma setFlag_registered (name n : string) (v v0 : Value) (c c' : Command) :
  setFlag name v c = Some c' -> registered c n v0 -> registered c' n v0.
Proof.
  unfold setFlag, registered.
  destruct (Flags c !! name) as [f|] eqn:Hf; [|done].
  destruct (sameKind (FlagValue f) v) eqn:Hk; [|done].
  intros [= <-] (g & Hg & Hkg). simpl.
  destruct (decide (name = n)) as [->|Hne].
  - rewrite lookup_insert_eq. eexists; split; [done|]. simpl.
    rewrite Hf in Hg. injection Hg as <-. eauto using sameKind_trans.
  - rewrite lookup_insert_ne by done. eauto.
Qed.

Lemma ParseFlags_registered (given : list (string * Value)) (n : string)
    (v0 : Value) (c cmd : Command) :
  ParseFlags given c = Some cmd -> registered c n v0 -> registered cmd n v0.
Proof.
  revert c. induction given as [|[name v] given IH]; intros c; simpl.
  - by intros [= <-].
  - destruct (setFlag name v c) as [c'|] eqn:Hset; [|done].
    intros Hp Hr. eapply IH; [done|]. eauto using setFlag_registered.
Qed.

Lemma setFlag_other (name n : string) (v : Value) (c c' : Command) :
  setFlag name v c = Some c' -> n ≠ name -> Flags c' !! n = Flags c !! n.
Proof.
  unfold setFlag. destruct (Flags c !! name) as [f|]; [|done].
  destruct (sameKind (FlagValue f) v); [|done].
  intros [= <-] Hne. simpl. by rewrite lookup_insert_ne.
Qed.

(** A flag that is not on the command line keeps its registered state. *)
Lemma ParseFlags_not_given (given : list (string * Value)) (n : string)
    (c cmd : Command) :
  ParseFlags given c = Some cmd -> n ∉ given.*1 -> Flags cmd !! n = Flags c !! n.
Proof.
  revert c. induction given as [|[name v] given IH]; intros c; simpl.
  - by intros [= <-].
  - destruct (setFlag name v c) as [c'|] eqn:Hset; [|done].
    intros Hp Hn. apply not_elem_of_cons in Hn as [Hne Hn].
    rewrite (IH _ Hp Hn). eauto using setFlag_other.
Qed.

Lemma GetBoolFlag_registered (cmd : Command) (name : string) (b0 : bool) :
  registered cmd name (boolValue b0) ->
  utils_GetBoolFlag cmd name = mret (flagBool cmd name).
Proof.
  intros (f & Hf & Hk). unfold utils_GetBoolFlag, flagBool, orPanic.
  rewrite Hf, bind_ret. by destruct (FlagValue f).
Qed.

Lemma Flag_Value_String_registered (cmd : Command) (name : string) (v0 : Value) :
  registered cmd name v0 ->
  Flag_Value_String cmd name = mret (flagString cmd name).
Proof.
  intros (f & Hf & Hk). unfold Flag_Value_String, flagString, orPanic.
  by rewrite Hf, bind_ret.
Qed.

(** [x := fallback; if len(args) > 0 { x = args[0] }] *)
Lemma positional (args : list string) (fallback : string) :
  (if 0 <? Z.of_nat (length args) then orPanic (args !! 0%nat) else mret fallback)
  = mret (resolved args fallback).
Proof. by destruct args. Qed.

Lemma missingRequired_elem (c : Command) (name : string) (f : Flag) :
  Flags c !! name = Some f -> Required f = true -> Changed f = false ->
  name ∈ missingRequired c.
Proof.
  intros Hf Hr Hc. unfold missingRequired. apply list_elem_of_omap.
  exists (name, f). split; [by apply elem_of_map_to_list|]. by rewrite Hr, Hc.
Qed.

(** The flags of a parsed command line are those [init] registered. *)
Ltac parsed H :=
  repeat match goal with
  | |- context [utils_GetBoolFlag ?cmd ?name] =>
      rewrite (GetBoolFlag_registered cmd name false)
        by (eapply (ParseFlags_registered _ _ _ _ _ H);
            eexists; split; [vm_compute; reflexivity | reflexivity])
  | |- context [Flag_Value_String ?cmd ?name] =>
      rewrite (Flag_Value_String_registered cmd name (stringValue ""))
        by (eapply (ParseFlags_registered _ _ _ _ _ H);
            eexists; split; [vm_compute; reflexivity | reflexivity])
  end;
  repeat first [rewrite bind_ret | rewrite positional].

(** ** The derivation step *)

Lemma deriveEnvironment_spec (environment name : string) :
  Enclave.deriveEnvironment environment name =
  mret (derivedEnvironment environment name).
Proof.
  unfold Enclave.deriveEnvironment, derivedEnvironment.
  destruct (String.eqb_spec environment "") as [->|Hne]; [|done]. simpl.
  destruct (hasChar "_" name) eqn:Hc.
  - rewrite (strings_Index_hasChar _ _ Hc).
    replace (Z.of_nat _ =? -1) with false by (symmetry; apply Z.eqb_neq; lia).
    simpl. by rewrite slice_before.
  - by rewrite (strings_Index_not_hasChar _ _ Hc).
Qed.

(** ** The command bodies on a parsed command line *)

Section Bodies.
Variable w : World.
Variable given : list (string * Value).
Variable cmd : Command.
Variable args : list string.

Local Abbreviation lc := (configuration_LocalConfig w cmd).

(** The body of create with its flag reads and its positional argument
    resolved, then evaluated step by step. *)
Lemma create_parsed :
  ParseFlags given Enclave.configsCreateCmd = Some cmd ->
  Enclave.configsCreateCmd_Run w cmd args =
  (let name := resolved args (flagString cmd "name") in
   _ ← when (name =? "")%string
         (utils_Err (errors_New "you must specify a name") []);
   environment ← Enclave.deriveEnvironment (flagString cmd "environment") name;
   _ ← when (environment =? "")%string
         (utils_Err (errors_New "you must specify an environment") []);
   '(info, err) ← api_CreateConfig w (APIHost lc) (verify w cmd) (Token lc)
       (Project_ lc) name environment (negb (flagBool cmd "no-defaults"));
   _ ← Enclave.check err;
   when (negb (flagBool cmd "silent"))
     (utils_PrintConfigInfo info (utils_JSON w))).
Proof. intros H. unfold Enclave.configsCreateCmd_Run. by parsed H. Qed.

Lemma create_run :
  ParseFlags given Enclave.configsCreateCmd = Some cmd ->
  Enclave.configsCreateCmd_Run w cmd args =
  (let name := resolved args (flagString cmd "name") in
   let environment := derivedEnvironment (flagString cmd "environment") name in
   let c := CreateConfig (APIHost lc) (verify w cmd) (Token lc) (Project_ lc)
              name environment (negb (flagBool cmd "no-defaults")) in
   if (name =? "")%string
   then ([EvErr (errors_New "you must specify a name") []], Exited 1)
   else if (environment =? "")%string
   then ([EvErr (errors_New "you must specify an environment") []], Exited 1)
   else if IsNil (configResult w c).2
   then (EvApi c :: (if flagBool cmd "silent" then []
                     else [EvPrintConfigInfo (configResult w c).1 (utils_JSON w)]),
         Returned tt)
   else ([EvApi c; EvErr (Unwrap (configResult w c).2) [Message (configResult w c).2]],
         Exited 1)).
Proof.
  intros H. rewrite (create_parsed H). cbv zeta.
  rewrite deriveEnvironment_spec.
  destruct (_ =? "")%string; [done|]. unfold when at 1. rewrite !bind_ret.
  destruct (_ =? "")%string; [done|]. unfold when at 1. rewrite !bind_ret.
  unfold api_CreateConfig. rewrite bind_call.
  destruct (configResult w _) as [info err]. simpl.
  unfold Enclave.check, when. destruct (IsNil err); simpl; [|done].
  by destruct (flagBool cmd "silent").
Qed.

(** The runs of the other bodies, by cases on what the collaborators
    answer. *)
Lemma delete_run :
  ParseFlags given Enclave.configsDeleteCmd = Some cmd ->
  Enclave.configsDeleteCmd_Run w cmd args =
  (let config := resolved args (Config lc) in
   let message := "Delete config " +:+ config in
   let answer := promptAnswer w message false in
   let prompt := if flagBool cmd "yes" then []
                 else [EvConfirmationPrompt message false answer] in
   let del := DeleteConfig (APIHost lc) (verify w cmd) (Token lc) (Project_ lc)
                config in
   let lst := GetConfigs (APIHost lc) (verify w cmd) (Token lc) (Project_ lc) in
   if flagBool cmd "yes" || answer
   then if IsNil (deleteResult w del)
        then if flagBool cmd "silent"
             then (prompt ++ [EvApi del], Returned tt)
             else if IsNil (configsResult w lst).2
             then (prompt ++ [EvApi del; EvApi lst;
                              EvPrintConfigsInfo (configsResult w lst).1 (utils_JSON w)],
                   Returned tt)
             else (prompt ++ [EvApi del; EvApi lst;
                              EvErr (Unwrap (configsResult w lst).2)
                                    [Message (configsResult w lst).2]],
                   Exited 1)
        else (prompt ++ [EvApi del;
                         EvErr (Unwrap (deleteResult w del))
                               [Message (deleteResult w del)]],
              Exited 1)
   else (prompt, Returned tt)).
Proof.
  intros H. unfold Enclave.configsDeleteCmd_Run. parsed H. cbv zeta.
  fold lc. fold (verify w cmd).
  unfold utils_ConfirmationPrompt, api_DeleteConfig, api_GetConfigs,
    Enclave.check, when.
  destruct (flagBool cmd "yes"); simpl.
  - destruct (IsNil (deleteResult w _)); simpl; [|done].
    destruct (flagBool cmd "silent"); simpl; [done|].
    destruct (configsResult w _) as [configs err]; simpl.
    by destruct (IsNil err).
  - destruct (promptAnswer w _ false); simpl; [|done].
    destruct (IsNil (deleteResult w _)); simpl; [|done].
    destruct (flagBool cmd "silent"); simpl; [done|].
    destruct (configsResult w _) as [configs err]; simpl.
    by destruct (IsNil err).
Qed.

Lemma update_run :
  ParseFlags given Enclave.configsUpdateCmd = Some cmd ->
  Enclave.configsUpdateCmd_Run w cmd args =
  (let c := UpdateConfig (APIHost lc) (verify w cmd) (Token lc) (Project_ lc)
              (resolved args (Config lc)) (flagString cmd "name") in
   if IsNil (configResult w c).2
   then (EvApi c :: (if flagBool cmd "silent" then []
                     else [EvPrintConfigInfo (configResult w c).1 (utils_JSON w)]),
         Returned tt)
   else ([EvApi c; EvErr (Unwrap (configResult w c).2) [Message (configResult w c).2]],
         Exited 1)).
Proof.
  intros H. unfold Enclave.configsUpdateCmd_Run. parsed H. cbv zeta.
  fold lc. fold (verify w cmd).
  unfold api_UpdateConfig, Enclave.check, when. rewrite bind_call.
  destruct (configResult w _) as [info err]; simpl.
  destruct (IsNil err); simpl; [|done]. by destruct (flagBool cmd "silent").
Qed.

Lemma rollback_run :
  ParseFlags given Enclave.configsLogsRollbackCmd = Some cmd ->
  Enclave.configsLogsRollbackCmd_Run w cmd args =
  (let c := RollbackConfigLog (APIHost lc) (verify w cmd) (Token lc) (Project_ lc)
              (Config lc) (resolved args (flagString cmd "log")) in
   if IsNil (logResult w c).2
   then (EvApi c :: (if flagBool cmd "silent" then []
                     else [EvPrintLog (logResult w c).1 (utils_JSON w)]),
         Returned tt)
   else ([EvApi c; EvErr (Unwrap (logResult w c).2) [Message (logResult w c).2]],
         Exited 1)).
Proof.
  intros H. unfold Enclave.configsLogsRollbackCmd_Run. parsed H. cbv zeta.
  fold lc. fold (verify w cmd).
  unfold api_RollbackConfigLog, Enclave.check, when. rewrite bind_call.
  destruct (logResult w _) as [info err]; simpl.
  destruct (IsNil err); simpl; [|done]. by destruct (flagBool cmd "silent").
Qed.

Lemma logsGet_run :
  ParseFlags given Enclave.configsLogsGetCmd = Some cmd ->
  Enclave.configsLogsGetCmd_Run w cmd args =
  (let c := GetConfigLog (APIHost lc) (verify w cmd) (Token lc) (Project_ lc)
              (Config lc) (resolved args (flagString cmd "log")) in
   if IsNil (logResult w c).2
   then ([EvApi c; EvPrintLog (logResult w c).1 (utils_JSON w)], Returned tt)
   else ([EvApi c; EvErr (Unwrap (logResult w c).2) [Message (logResult w c).2]],
         Exited 1)).
Proof.
  intros H. unfold Enclave.configsLogsGetCmd_Run. parsed H. cbv zeta.
  fold lc. fold (verify w cmd).
  unfold api_GetConfigLog, Enclave.check, when. rewrite bind_call.
  destruct (logResult w _) as [info err]; simpl. by destruct (IsNil err).
Qed.

(** The bodies of [configs] and [configs get] read no flag of the command;
    the body of [configs logs] gets its number from [utils.GetIntFlag]. *)
Lemma get_run :
  Enclave.configsGetCmd_Run w cmd args =
  (let c := GetConfig (APIHost lc) (verify w cmd) (Token lc) (Project_ lc)
              (resolved args (Config lc)) in
   if IsNil (configResult w c).2
   then ([EvApi c; EvPrintConfigInfo (configResult w c).1 (utils_JSON w)],
         Returned tt)
   else ([EvApi c; EvErr (Unwrap (configResult w c).2) [Message (configResult w c).2]],
         Exited 1)).
Proof.
  unfold Enclave.configsGetCmd_Run. cbv zeta. rewrite positional, bind_ret.
  fold lc. fold (verify w cmd).
  unfold api_GetConfig, Enclave.check, when. rewrite bind_call.
  destruct (configResult w _) as [info err]; simpl. by destruct (IsNil err).
Qed.

Lemma list_run :
  Enclave.configsCmd_Run w cmd args =
  (let c := GetConfigs (APIHost lc) (verify w cmd) (Token lc) (Project_ lc) in
   if IsNil (configsResult w c).2
   then ([EvApi c; EvPrintConfigsInfo (configsResult w c).1 (utils_JSON w)],
         Returned tt)
   else ([EvApi c; EvErr (Unwrap (configsResult w c).2) [Message (configsResult w c).2]],
         Exited 1)).
Proof.
  unfold Enclave.configsCmd_Run. cbv zeta. fold lc. fold (verify w cmd).
  unfold api_GetConfigs, Enclave.check, when. rewrite bind_call.
  destruct (configsResult w _) as [info err]; simpl. by destruct (IsNil err).
Qed.

Lemma logs_run :
  Enclave.configsLogsCmd_Run w cmd args =
  (let c := GetConfigLogs (APIHost lc) (verify w cmd) (Token lc) (Project_ lc)
              (Config lc) in
   match intFlagAnswer w cmd "number" 16 with
   | inr text => ([EvErr (Some text) []], Exited 1)
   | inl number =>
       if IsNil (logsResult w c).2
       then ([EvApi c; EvPrintLogs (logsResult w c).1 number (utils_JSON w)],
             Returned tt)
       else ([EvApi c; EvErr (Unwrap (logsResult w c).2) [Message (logsResult w c).2]],
             Exited 1)
   end).
Proof.
  unfold Enclave.configsLogsCmd_Run, utils_GetIntFlag. cbv zeta.
  fold lc. fold (verify w cmd).
  destruct (intFlagAnswer w cmd "number" 16) as [number|text]; [|done].
  rewrite bind_ret.
  unfold api_GetConfigLogs, Enclave.check, when. rewrite bind_call.
  destruct (logsResult w _) as [info err]; simpl. by destruct (IsNil err).
Qed.
End Bodies.

(** ** [Execute] *)

Lemma setFlag_Args (name : string) (v : Value) (c c' : Command) :
  setFlag name v c = Some c' -> Args c' = Args c.
Proof.
  unfold setFlag. destruct (Flags c !! name) as [f|]; [|done].
  destruct (sameKind (FlagValue f) v); [|done]. by intros [= <-].
Qed.

Lemma ParseFlags_Args (given : list (string * Value)) (c cmd : Command) :
  ParseFlags given c = Some cmd -> Args cmd = Args c.
Proof.
  revert c. induction given as [|[name v] given IH]; intros c; simpl.
  - by intros [= <-].
  - destruct (setFlag name v c) as [c'|] eqn:Hset; [|done].
    intros Hp. rewrite (IH _ Hp). eauto using setFlag_Args.
Qed.

Lemma setFlag_noRequired (name : string) (v : Value) (c c' : Command) :
  setFlag name v c = Some c' -> noRequired c -> noRequired c'.
Proof.
  unfold setFlag, noRequired. destruct (Flags c !! name) as [f|] eqn:Hf; [|done].
  destruct (sameKind (FlagValue f) v); [|done]. intros [= <-] Hall. simpl.
  apply map_Forall_insert_2; [|done]. simpl. by apply (Hall name f).
Qed.

Lemma ParseFlags_noRequired (given : list (string * Value)) (c cmd : Command) :
  ParseFlags given c = Some cmd -> noRequired c -> noRequired cmd.
Proof.
  revert c. induction given as [|[name v] given IH]; intros c; simpl.
  - by intros [= <-].
  - destruct (setFlag name v c) as [c'|] eqn:Hset; [|done].
    intros Hp Hall. eapply IH; [done|]. eauto using setFlag_noRequired.
Qed.

Lemma missingRequired_noRequired (c : Command) :
  noRequired c -> missingRequired c = [].
Proof.
  intros Hall. unfold missingRequired.
  destruct (omap _ _) as [|name l] eqn:Heq; [done|].
  assert (Hin : name ∈ name :: l) by left. rewrite <- Heq in Hin.
  apply list_elem_of_omap in Hin as ([n f] & Hin & Hsome).
  apply elem_of_map_to_list in Hin. rewrite (Hall n f Hin) in Hsome. done.
Qed.

(** When nothing stands in the way, [Execute] runs the body on the parsed
    command. *)
Lemma Execute_run (c cmd : Command) (run : Command -> list string -> M unit)
    (given : list (string * Value)) (args : list string) :
  ParseFlags given c = Some cmd -> Args c args = true -> noRequired c ->
  Execute c run given args = (_ ← run cmd args; mret None).
Proof.
  intros Hp Ha Hr. unfold Execute. rewrite Hp, (ParseFlags_Args _ _ _ Hp), Ha.
  by rewrite (missingRequired_noRequired cmd) by eauto using ParseFlags_noRequired.
Qed.

Lemma delete_noRequired : noRequired Enclave.configsDeleteCmd.
Proof.
  apply map_Forall_to_list. vm_compute. repeat constructor.
Qed.

(** ** The earlier file *)

Lemma rows_append (info : list ConfigInfo) (rows : list (list string)) :
  foldl (fun rows configInfo => rows ++ [Legacy.configRow configInfo]) rows info
  = rows ++ map Legacy.configRow info.
Proof.
  revert rows. induction info as [|r info IH]; intros rows; simpl.
  - by rewrite app_nil_r.
  - by rewrite IH, <- app_assoc.
Qed.

Lemma printConfigsInfo_table (w : World) (info : list ConfigInfo) :
  Legacy.printConfigsInfo w info false =
  ([EvPrintTable Legacy.tableHeaders (map Legacy.configRow info)], Returned tt).
Proof. unfold Legacy.printConfigsInfo. by rewrite rows_append. Qed.

Lemma printConfigInfo_table (w : World) (info : ConfigInfo) :
  Legacy.printConfigInfo w info false =
  ([EvPrintTable Legacy.tableHeaders [Legacy.configRow info]], Returned tt).
Proof. reflexivity. Qed.

Lemma printConfigsInfo_json (w : World) (info : list ConfigInfo) :
  Legacy.printConfigsInfo w info true =
  match (json_Marshal_configs w info).2 with
  | None => ([EvPrintln (json_Marshal_configs w info).1], Returned tt)
  | Some e => ([EvErr (Some e) []], Exited 1)
  end.
Proof.
  unfold Legacy.printConfigsInfo. destruct (json_Marshal_configs w info) as [resp [e|]];
    reflexivity.
Qed.

Lemma printConfigInfo_json (w : World) (info : ConfigInfo) :
  Legacy.printConfigInfo w info true =
  match (json_Marshal_config w info).2 with
  | None => ([EvPrintln (json_Marshal_config w info).1], Returned tt)
  | Some e => ([EvErr (Some e) []], Exited 1)
  end.
Proof.
  unfold Legacy.printConfigInfo. destruct (json_Marshal_config w info) as [resp [e|]];
    reflexivity.
Qed.

Lemma printConfigsInfo_no_request (w : World) (info : list ConfigInfo) (jsonFlag : bool) :
  apiCalls (trace (Legacy.printConfigsInfo w info jsonFlag)) = [].
Proof.
  destruct jsonFlag.
  - rewrite printConfigsInfo_json. by destruct (json_Marshal_configs w info).2.
  - by rewrite printConfigsInfo_table.
Qed.

Lemma printConfigInfo_no_request (w : World) (info : ConfigInfo) (jsonFlag : bool) :
  apiCalls (trace (Legacy.printConfigInfo w info jsonFlag)) = [].
Proof.
  destruct jsonFlag.
  - rewrite printConfigInfo_json. by destruct (json_Marshal_config w info).2.
  - by rewrite printConfigInfo_table.
Qed.

Section LegacyBodies.
Variable w : World.
Variable given : list (string * Value).
Variable cmd : Command.
Variable args : list string.

Local Abbreviation lc := (configuration_LocalConfig w cmd).

Lemma legacy_get_run :
  ParseFlags given Legacy.configsGetCmd = Some cmd ->
  Legacy.configsGetCmd_Run w cmd args =
  (let c := GetAPIConfig (Key lc) (Project_ lc) (resolved args (Config lc)) in
   let p := Legacy.printConfigInfo w (legacyConfigResult w c) (flagBool cmd "json") in
   (EvApi c :: trace p, outcome p)).
Proof.
  intros H. unfold Legacy.configsGetCmd_Run. parsed H. cbv zeta. fold lc.
  unfold api_GetAPIConfig. by rewrite bind_call.
Qed.

Lemma legacy_update_run :
  ParseFlags given Legacy.configsUpdateCmd = Some cmd ->
  Legacy.configsUpdateCmd_Run w cmd args =
  (let c := UpdateAPIConfig (Key lc) (Project_ lc) (resolved args (Config lc))
              (flagString cmd "name") in
   let p := Legacy.printConfigInfo w (legacyConfigResult w c) (flagBool cmd "json") in
   if flagBool cmd "silent" then ([EvApi c], Returned tt)
   else (EvApi c :: trace p, outcome p)).
Proof.
  intros H. unfold Legacy.configsUpdateCmd_Run. parsed H. cbv zeta. fold lc.
  unfold api_UpdateAPIConfig. rewrite bind_call.
  by destruct (flagBool cmd "silent").
Qed.

Lemma legacy_create_run :
  ParseFlags given Legacy.configsCreateCmd = Some cmd ->
  Legacy.configsCreateCmd_Run w cmd args =
  (let c := CreateAPIConfig (Key lc) (Project_ lc)
              (resolved args (flagString cmd "name"))
              (flagString cmd "environment") (flagBool cmd "defaults") in
   let p := Legacy.printConfigInfo w (legacyConfigResult w c) (flagBool cmd "json") in
   if flagBool cmd "silent" then ([EvApi c], Returned tt)
   else (EvApi c :: trace p, outcome p)).
Proof.
  intros H. unfold Legacy.configsCreateCmd_Run. parsed H. cbv zeta. fold lc.
  unfold api_CreateAPIConfig. rewrite bind_call.
  by destruct (flagBool cmd "silent").
Qed.

Lemma legacy_delete_run :
  ParseFlags given Legacy.configsDeleteCmd = Some cmd ->
  Legacy.configsDeleteCmd_Run w cmd args =
  (let del := DeleteAPIConfig (Key lc) (Project_ lc) (resolved args (Config lc)) in
   let lst := GetAPIConfigs (Key lc) (Project_ lc) in
   let p := Legacy.printConfigsInfo w (legacyConfigsResult w lst) (flagBool cmd "json") in
   if flagBool cmd "silent" then ([EvApi del], Returned tt)
   else (EvApi del :: EvApi lst :: trace p, outcome p)).
Proof.
  intros H. unfold Legacy.configsDeleteCmd_Run. parsed H. cbv zeta. fold lc.
  unfold api_DeleteAPIConfig, api_GetAPIConfigs. rewrite bind_call.
  destruct (flagBool cmd "silent"); [done|]. simpl.
  by destruct (Legacy.printConfigsInfo w _ _).
Qed.
End LegacyBodies.

(** Without [--environment] on the command line the earlier create command
    is stopped before its body. *)
Lemma legacy_create_required (w : World) (given : list (string * Value))
    (args : list string) :
  "environment" ∉ given.*1 ->
  let run := Execute Legacy.configsCreateCmd (Legacy.configsCreateCmd_Run w)
               given args in
  trace run = []
  /\ (outcome run = Returned (Some FlagError)
      \/ exists names, "environment" ∈ names
                       /\ outcome run = Returned (Some (RequiredFlagsError names))).
Proof.
  intros Hn. unfold Execute.
  destruct (ParseFlags given Legacy.configsCreateCmd) as [cmd|] eqn:Hp; [|by auto].
  rewrite (ParseFlags_Args _ _ _ Hp). simpl.
  pose proof (ParseFlags_not_given _ _ _ _ Hp Hn) as Hf.
  assert (Hin : "environment" ∈ missingRequired cmd).
  { eapply missingRequired_elem; [rewrite Hf; vm_compute; reflexivity | done | done]. }
  destruct (missingRequired cmd) as [|name names] eqn:Hm;
    [by apply elem_of_nil in Hin|].
  split; [done|]. right. by exists (name :: names).
Qed.

Lemma legacy_list_run (w : World) (given : list (string * Value)) (cmd : Command)
    (args : list string) :
  ParseFlags given Legacy.configsCmd = Some cmd ->
  Legacy.configsCmd_Run w cmd args =
  (let lc := configuration_LocalConfig w cmd in
   let c := GetAPIConfigs (Key lc) (Project_ lc) in
   let p := Legacy.printConfigsInfo w (legacyConfigsResult w c) (flagBool cmd "json") in
   (EvApi c :: trace p, outcome p)).
Proof.
  intros H. unfold Legacy.configsCmd_Run. parsed H. cbv zeta.
  unfold api_GetAPIConfigs. by rewrite bind_call.
Qed.

(** * The create command *)

(** C1.  Create-config with an empty [--environment]: for a name with an
    underscore the derivation step yields the part of the name strictly
    before its first underscore, and the one request of the run, if any,
    carries that part as its environment (there is none exactly when that
    part is empty); for a name with no underscore the derivation yields the
    empty string and the run is rejected: one validation error, no request,
    exit status 1. *)
Theorem create_derives_environment (w : World) (given : list (string * Value))
    (cmd : Command) (args : list string) :
  ParseFlags given Enclave.configsCreateCmd = Some cmd ->
  flagString cmd "environment" = "" ->
  let name := resolved args (flagString cmd "name") in
  let run := Enclave.configsCreateCmd_Run w cmd args in
  let lc := configuration_LocalConfig w cmd in
  if hasChar "_" name
  then (exists rest, name = before "_" name +:+ String "_" rest
                     /\ hasChar "_" (before "_" name) = false)
       /\ Enclave.deriveEnvironment "" name = mret (before "_" name)
       /\ apiCalls (trace run) =
          (if (before "_" name =? "")%string then []
           else [CreateConfig (APIHost lc) (verify w cmd) (Token lc) (Project_ lc)
                   name (before "_" name) (negb (flagBool cmd "no-defaults"))])
  else Enclave.deriveEnvironment "" name = mret ""
       /\ run = ([EvErr (errors_New (if (name =? "")%string
                                     then "you must specify a name"
                                     else "you must specify an environment")) []],
                 Exited 1)
       /\ apiCalls (trace run) = [].
Proof.
  intros Hp He name run lc. subst run. rewrite (create_run _ _ _ _ Hp).
  fold name lc. rewrite He, deriveEnvironment_spec. unfold derivedEnvironment.
  simpl. destruct (hasChar "_" name) eqn:Hc.
  - split; [by apply before_split|]. split; [done|].
    destruct (String.eqb_spec name "") as [Hn|Hn]; [by rewrite Hn in Hc|].
    destruct (before "_" name =? "")%string; [done|].
    destruct (IsNil _); [|done]. by destruct (flagBool cmd "silent").
  - split; [done|]. by destruct (name =? "")%string.
Qed.

Lemma create_derives_environment_witness :
  apiCalls (trace (Enclave.configsCreateCmd_Run (exampleWorld false noError)
                     Enclave.configsCreateCmd ["backend_dev"]))
  = [CreateConfig "https://api.doppler.com" true "token" "backend"
       "backend_dev" "backend" true].
Proof.
  exact (proj2 (proj2 (create_derives_environment (exampleWorld false noError) []
                         Enclave.configsCreateCmd ["backend_dev"]
                         eq_refl eq_refl))).
Defined.

(** The two scenarios of the specification, by evaluation. *)
Example create_backend_dev :
  Enclave.configsCreateCmd_Run (exampleWorld false noError)
    Enclave.configsCreateCmd ["backend_dev"]
  = ([EvApi (CreateConfig "https://api.doppler.com" true "token" "backend"
               "backend_dev" "backend" true);
      EvPrintConfigInfo exampleConfig false], Returned tt).
Proof. vm_compute. reflexivity. Qed.

Example create_myconfig :
  Enclave.configsCreateCmd_Run (exampleWorld false noError)
    Enclave.configsCreateCmd ["myconfig"]
  = ([EvErr (Some "you must specify an environment") []], Exited 1).
Proof. vm_compute. reflexivity. Qed.

(** C9.  A name that begins with an underscore, with an empty
    [--environment]: the derivation step yields the empty string, and the
    run is the error "you must specify an environment" followed by exit
    status 1, with no request, although the name contains an underscore. *)
Theorem create_leading_underscore_rejected (w : World)
    (given : list (string * Value)) (cmd : Command) (args : list string)
    (rest : string) :
  ParseFlags given Enclave.configsCreateCmd = Some cmd ->
  flagString cmd "environment" = "" ->
  resolved args (flagString cmd "name") = String "_" rest ->
  hasChar "_" (String "_" rest) = true
  /\ Enclave.deriveEnvironment "" (String "_" rest) = mret ""
  /\ Enclave.configsCreateCmd_Run w cmd args
     = ([EvErr (errors_New "you must specify an environment") []], Exited 1)
  /\ apiCalls (trace (Enclave.configsCreateCmd_Run w cmd args)) = [].
Proof.
  intros Hp He Hn. rewrite (create_run _ _ _ _ Hp). cbv zeta.
  rewrite He, Hn, deriveEnvironment_spec. done.
Qed.

Lemma create_leading_underscore_rejected_witness :
  Enclave.configsCreateCmd_Run (exampleWorld false noError)
    Enclave.configsCreateCmd ["_dev"]
  = ([EvErr (errors_New "you must specify an environment") []], Exited 1).
Proof.
  exact (proj1 (proj2 (proj2
           (create_leading_underscore_rejected (exampleWorld false noError) []
              Enclave.configsCreateCmd ["_dev"] "dev"
              eq_refl eq_refl eq_refl)))).
Defined.

(** C2, as stated, fails on the earlier file, whose create command checks
    nothing itself: with [--environment dev] and no name the request is sent
    with an empty name, and with an explicitly empty [--environment] it is
    sent with an empty environment. *)
Lemma create_validation_counterexample :
  apiCalls (trace (Execute Legacy.configsCreateCmd
                     (Legacy.configsCreateCmd_Run (exampleWorld false noError))
                     [("environment", stringValue "dev")] []))
  = [CreateAPIConfig "key" "backend" "" "dev" true]
  /\ apiCalls (trace (Execute Legacy.configsCreateCmd
                        (Legacy.configsCreateCmd_Run (exampleWorld false noError))
                        [("environment", stringValue "")] ["backend_dev"]))
     = [CreateAPIConfig "key" "backend" "backend_dev" "" true].
Proof. split; vm_compute; reflexivity. Qed.

(** C2, amended.  In the later file, an invocation whose resolved name is
    empty, or whose environment is still empty after the derivation step,
    reports a validation error, exits with status 1 and sends no request.
    In the earlier file, where [--environment] is a required flag, an
    invocation without [--environment] on its command line is stopped by
    [Execute] before the body runs: no event at all, and an error is handed
    back. *)
Theorem create_validation (w : World) (given : list (string * Value))
    (args : list string) :
  (forall cmd,
     ParseFlags given Enclave.configsCreateCmd = Some cmd ->
     let name := resolved args (flagString cmd "name") in
     let run := Enclave.configsCreateCmd_Run w cmd args in
     name = "" \/ Enclave.deriveEnvironment (flagString cmd "environment") name = mret "" ->
     run = ([EvErr (errors_New (if (name =? "")%string
                                then "you must specify a name"
                                else "you must specify an environment")) []],
            Exited 1)
     /\ apiCalls (trace run) = [])
  /\ ("environment" ∉ given.*1 ->
      let run := Execute Legacy.configsCreateCmd (Legacy.configsCreateCmd_Run w)
                   given args in
      trace run = []
      /\ (outcome run = Returned (Some FlagError)
          \/ exists names, "environment" ∈ names
                           /\ outcome run = Returned (Some (RequiredFlagsError names)))
      /\ exitStatus (outcome run) = 1).
Proof.
  split.
  - intros cmd Hp name run Hempty. subst run. rewrite (create_run _ _ _ _ Hp).
    fold name. cbv zeta. destruct Hempty as [->|Hd]; [done|].
    rewrite deriveEnvironment_spec in Hd. injection Hd as ->.
    by destruct (name =? "")%string.
  - intros Hn run. destruct (legacy_create_required w given args Hn) as [Ht Ho].
    fold run in Ht, Ho. split; [done|]. split; [done|].
    by destruct Ho as [->|(names & _ & ->)].
Qed.

Lemma create_validation_witness :
  (Enclave.configsCreateCmd_Run (exampleWorld false noError)
     Enclave.configsCreateCmd ["myconfig"]
   = ([EvErr (errors_New "you must specify an environment") []], Exited 1))
  /\ (let run := Execute Legacy.configsCreateCmd
                   (Legacy.configsCreateCmd_Run (exampleWorld false noError))
                   [] ["backend_dev"] in
      trace run = [] /\ exitStatus (outcome run) = 1).
Proof.
  split.
  - exact (proj1 (proj1 (create_validation (exampleWorld false noError) []
                           ["myconfig"])
                    Enclave.configsCreateCmd eq_refl (or_intror eq_refl))).
  - assert (Hn : "environment" ∉ ([] : list (string * Value)).*1)
      by apply not_elem_of_nil.
    destruct (proj2 (create_validation (exampleWorld false noError) []
                       ["backend_dev"]) Hn) as (Ht & _ & Hs).
    by split.
Defined.

(** * The delete command *)

(** C3.  Delete without [--yes], answered "no" at the prompt: the run is the
    prompt alone, no request is sent, the body returns, and the process ends
    with status 0. *)
Theorem delete_declined (w : World) (given : list (string * Value))
    (cmd : Command) (args : list string) :
  ParseFlags given Enclave.configsDeleteCmd = Some cmd ->
  Args Enclave.configsDeleteCmd args = true ->
  flagBool cmd "yes" = false ->
  let message :=
    "Delete config " +:+ resolved args (Config (configuration_LocalConfig w cmd)) in
  promptAnswer w message false = false ->
  let run := Execute Enclave.configsDeleteCmd (Enclave.configsDeleteCmd_Run w)
               given args in
  Enclave.configsDeleteCmd_Run w cmd args
  = ([EvConfirmationPrompt message false false], Returned tt)
  /\ trace run = [EvConfirmationPrompt message false false]
  /\ apiCalls (trace run) = []
  /\ exitStatus (outcome run) = 0.
Proof.
  intros Hp Ha Hy message Hno run. subst run.
  rewrite (Execute_run _ _ _ _ _ Hp Ha delete_noRequired).
  rewrite (delete_run _ _ _ _ Hp). cbv zeta. fold message.
  by rewrite Hy, Hno.
Qed.

Lemma delete_declined_witness :
  let run := Execute Enclave.configsDeleteCmd
               (Enclave.configsDeleteCmd_Run (exampleWorld false noError))
               [] ["staging"] in
  trace run = [EvConfirmationPrompt "Delete config staging" false false]
  /\ apiCalls (trace run) = []
  /\ exitStatus (outcome run) = 0.
Proof.
  exact (proj2 (delete_declined (exampleWorld false noError) []
                  Enclave.configsDeleteCmd ["staging"]
                  eq_refl eq_refl eq_refl eq_refl)).
Defined.

(** C4, as stated, fails when the delete request itself fails: with [--yes]
    and without [--silent] the error is reported and the process exits, so
    the delete request is followed by no list request. *)
Lemma delete_requests_counterexample :
  Execute Enclave.configsDeleteCmd
    (Enclave.configsDeleteCmd_Run (exampleWorld false apiFailure))
    [("yes", boolValue true)] ["staging"]
  = ([EvApi (DeleteConfig "https://api.doppler.com" true "token" "backend" "staging");
      EvErr (Some "404 Not Found") ["Unable to reach the config"]],
     Exited 1).
Proof. vm_compute. reflexivity. Qed.

(** C4, amended.  Delete with [--yes] or an affirmative answer sends exactly
    one delete request; one list request follows it exactly when the delete
    request succeeded and [--silent] is not set, and nothing else is
    requested. *)
Theorem delete_confirmed_requests (w : World) (given : list (string * Value))
    (cmd : Command) (args : list string) :
  ParseFlags given Enclave.configsDeleteCmd = Some cmd ->
  let lc := configuration_LocalConfig w cmd in
  let config := resolved args (Config lc) in
  flagBool cmd "yes" || promptAnswer w ("Delete config " +:+ config) false = true ->
  let del := DeleteConfig (APIHost lc) (verify w cmd) (Token lc) (Project_ lc) config in
  let lst := GetConfigs (APIHost lc) (verify w cmd) (Token lc) (Project_ lc) in
  apiCalls (trace (Enclave.configsDeleteCmd_Run w cmd args))
  = del :: (if IsNil (deleteResult w del) && negb (flagBool cmd "silent")
            then [lst] else []).
Proof.
  intros Hp lc config Hc del lst. rewrite (delete_run _ _ _ _ Hp). cbv zeta.
  fold lc config del lst. rewrite Hc.
  destruct (flagBool cmd "yes"), (IsNil (deleteResult w del)),
    (flagBool cmd "silent"); simpl; try done;
    by destruct (IsNil (configsResult w lst).2).
Qed.

Lemma delete_confirmed_requests_witness :
  apiCalls (trace (Enclave.configsDeleteCmd_Run (exampleWorld true noError)
                     Enclave.configsDeleteCmd ["staging"]))
  = [DeleteConfig "https://api.doppler.com" true "token" "backend" "staging";
     GetConfigs "https://api.doppler.com" true "token" "backend"].
Proof.
  exact (delete_confirmed_requests (exampleWorld true noError) []
           Enclave.configsDeleteCmd ["staging"] eq_refl eq_refl).
Defined.

(** * Positional arguments *)

(** C5.  In get, update and delete the config named in the request, and in
    logs get and logs rollback the log id, is [resolved args fallback]: the
    first positional argument when there is one, else the config of the
    settings bundle, respectively the [--log] flag.  This holds in both
    files for the commands they have. *)
Theorem positional_argument_overrides (w : World) (given : list (string * Value))
    (cmd : Command) (args : list string) :
  let lc := configuration_LocalConfig w cmd in
  let host := APIHost lc in
  let tls := verify w cmd in
  let config := resolved args (Config lc) in
  let log := resolved args (flagString cmd "log") in
  (forall a rest fallback, resolved (a :: rest) fallback = a)
  /\ (forall fallback, resolved [] fallback = fallback)
  /\ apiCalls (trace (Enclave.configsGetCmd_Run w cmd args))
     = [GetConfig host tls (Token lc) (Project_ lc) config]
  /\ (ParseFlags given Enclave.configsUpdateCmd = Some cmd ->
      apiCalls (trace (Enclave.configsUpdateCmd_Run w cmd args))
      = [UpdateConfig host tls (Token lc) (Project_ lc) config
           (flagString cmd "name")])
  /\ (ParseFlags given Enclave.configsDeleteCmd = Some cmd ->
      apiCalls (trace (Enclave.configsDeleteCmd_Run w cmd args))
      = if flagBool cmd "yes" || promptAnswer w ("Delete config " +:+ config) false
        then DeleteConfig host tls (Token lc) (Project_ lc) config
             :: (if IsNil (deleteResult w
                             (DeleteConfig host tls (Token lc) (Project_ lc) config))
                    && negb (flagBool cmd "silent")
                 then [GetConfigs host tls (Token lc) (Project_ lc)] else [])
        else [])
  /\ (ParseFlags given Enclave.configsLogsGetCmd = Some cmd ->
      apiCalls (trace (Enclave.configsLogsGetCmd_Run w cmd args))
      = [GetConfigLog host tls (Token lc) (Project_ lc) (Config lc) log])
  /\ (ParseFlags given Enclave.configsLogsRollbackCmd = Some cmd ->
      apiCalls (trace (Enclave.configsLogsRollbackCmd_Run w cmd args))
      = [RollbackConfigLog host tls (Token lc) (Project_ lc) (Config lc) log])
  /\ (ParseFlags given Legacy.configsGetCmd = Some cmd ->
      apiCalls (trace (Legacy.configsGetCmd_Run w cmd args))
      = [GetAPIConfig (Key lc) (Project_ lc) config])
  /\ (ParseFlags given Legacy.configsUpdateCmd = Some cmd ->
      apiCalls (trace (Legacy.configsUpdateCmd_Run w cmd args))
      = [UpdateAPIConfig (Key lc) (Project_ lc) config (flagString cmd "name")])
  /\ (ParseFlags given Legacy.configsDeleteCmd = Some cmd ->
      apiCalls (trace (Legacy.configsDeleteCmd_Run w cmd args))
      = DeleteAPIConfig (Key lc) (Project_ lc) config
        :: (if flagBool cmd "silent" then []
            else [GetAPIConfigs (Key lc) (Project_ lc)])).
Proof.
  intros lc host tls config log.
  split; [done|]. split; [done|]. split; [|split; [|split; [|split; [|split;
    [|split; [|split]]]]]]; try intros Hp.
  - rewrite get_run. cbv zeta. by destruct (IsNil _).
  - rewrite (update_run _ _ _ _ Hp). cbv zeta.
    by destruct (IsNil _), (flagBool cmd "silent").
  - rewrite (delete_run _ _ _ _ Hp). cbv zeta. fold lc host tls config.
    destruct (flagBool cmd "yes"), (promptAnswer w _ false),
      (IsNil (deleteResult w _)), (flagBool cmd "silent"); simpl; try done;
      by destruct (IsNil (configsResult w _).2).
  - rewrite (logsGet_run _ _ _ _ Hp). cbv zeta. by destruct (IsNil _).
  - rewrite (rollback_run _ _ _ _ Hp). cbv zeta.
    by destruct (IsNil _), (flagBool cmd "silent").
  - rewrite (legacy_get_run _ _ _ _ Hp). cbv zeta. fold lc config.
    simpl. by rewrite printConfigInfo_no_request.
  - rewrite (legacy_update_run _ _ _ _ Hp). cbv zeta. fold lc config.
    destruct (flagBool cmd "silent"); simpl; [done|].
    by rewrite printConfigInfo_no_request.
  - rewrite (legacy_delete_run _ _ _ _ Hp). cbv zeta. fold lc config.
    destruct (flagBool cmd "silent"); simpl; [done|].
    by rewrite printConfigsInfo_no_request.
Qed.

Lemma positional_argument_overrides_witness :
  let w := exampleWorld true noError in
  apiCalls (trace (Enclave.configsUpdateCmd_Run w Enclave.configsUpdateCmd ["staging"]))
  = [UpdateConfig "https://api.doppler.com" true "token" "backend" "staging" ""]
  /\ apiCalls (trace (Enclave.configsDeleteCmd_Run w Enclave.configsDeleteCmd ["staging"]))
     = [DeleteConfig "https://api.doppler.com" true "token" "backend" "staging";
        GetConfigs "https://api.doppler.com" true "token" "backend"]
  /\ apiCalls (trace (Enclave.configsLogsGetCmd_Run w Enclave.configsLogsGetCmd ["log-9"]))
     = [GetConfigLog "https://api.doppler.com" true "token" "backend" "dev" "log-9"]
  /\ apiCalls (trace (Enclave.configsLogsRollbackCmd_Run w
                        Enclave.configsLogsRollbackCmd ["log-9"]))
     = [RollbackConfigLog "https://api.doppler.com" true "token" "backend" "dev" "log-9"]
  /\ apiCalls (trace (Legacy.configsGetCmd_Run w Legacy.configsGetCmd ["staging"]))
     = [GetAPIConfig "key" "backend" "staging"]
  /\ apiCalls (trace (Legacy.configsUpdateCmd_Run w Legacy.configsUpdateCmd ["staging"]))
     = [UpdateAPIConfig "key" "backend" "staging" ""]
  /\ apiCalls (trace (Legacy.configsDeleteCmd_Run w Legacy.configsDeleteCmd ["staging"]))
     = [DeleteAPIConfig "key" "backend" "staging"; GetAPIConfigs "key" "backend"].
Proof.
  intros w.
  pose proof (positional_argument_overrides w [] Enclave.configsUpdateCmd ["staging"])
    as (_ & _ & _ & Hupdate & _).
  pose proof (positional_argument_overrides w [] Enclave.configsDeleteCmd ["staging"])
    as (_ & _ & _ & _ & Hdelete & _).
  pose proof (positional_argument_overrides w [] Enclave.configsLogsGetCmd ["log-9"])
    as (_ & _ & _ & _ & _ & Hget & _).
  pose proof (positional_argument_overrides w [] Enclave.configsLogsRollbackCmd ["log-9"])
    as (_ & _ & _ & _ & _ & _ & Hrollback & _).
  pose proof (positional_argument_overrides w [] Legacy.configsGetCmd ["staging"])
    as (_ & _ & _ & _ & _ & _ & _ & Hlget & _).
  pose proof (positional_argument_overrides w [] Legacy.configsUpdateCmd ["staging"])
    as (_ & _ & _ & _ & _ & _ & _ & _ & Hlupdate & _).
  pose proof (positional_argument_overrides w [] Legacy.configsDeleteCmd ["staging"])
    as (_ & _ & _ & _ & _ & _ & _ & _ & _ & Hldelete).
  split_and!.
  - exact (Hupdate eq_refl).
  - exact (Hdelete eq_refl).
  - exact (Hget eq_refl).
  - exact (Hrollback eq_refl).
  - exact (Hlget eq_refl).
  - exact (Hlupdate eq_refl).
  - exact (Hldelete eq_refl).
Defined.

(** * Rendering *)

(** C6.  Without [--json], a list of config records is rendered as one table
    whose headers are name, missing_variables, deployed_at, created_at,
    stage, project, with one row per record, in order; a single record as
    the same table with one row.  The second cell of a row is the record's
    missing variables joined by [", "], a separator of two characters. *)
Theorem table_rendering (w : World) (info : list ConfigInfo) (one : ConfigInfo) :
  let headers :=
    ["name"; "missing_variables"; "deployed_at"; "created_at"; "stage"; "project"] in
  let row := fun r : ConfigInfo =>
    [Name r; strings_Join (MissingVariables r) ", "; DeployedAt r; CreatedAt r;
     Environment r; Project r] in
  Legacy.printConfigsInfo w info false
  = ([EvPrintTable headers (map row info)], Returned tt)
  /\ length (map row info) = length info
  /\ Legacy.printConfigInfo w one false
     = ([EvPrintTable headers [row one]], Returned tt)
  /\ String.length ", " = 2%nat
  /\ (forall sep, strings_Join [] sep = "")
  /\ (forall x sep, strings_Join [x] sep = x)
  /\ (forall x y l sep,
        strings_Join (x :: y :: l) sep = x +:+ sep +:+ strings_Join (y :: l) sep).
Proof.
  intros headers row. split_and!; try done.
  - apply printConfigsInfo_table.
  - apply length_map.
Qed.

Example table_of_two :
  Legacy.printConfigsInfo (exampleWorld false noError)
    [exampleConfig; mkConfigInfo "prd" "prd" "backend" "2019-10-03" "" []] false
  = ([EvPrintTable
        ["name"; "missing_variables"; "deployed_at"; "created_at"; "stage"; "project"]
        [["dev"; "API_KEY, DB_URL"; "2019-10-02"; "2019-10-01"; "dev"; "backend"];
         ["prd"; ""; ""; "2019-10-03"; "prd"; "backend"]]],
     Returned tt).
Proof. vm_compute. reflexivity. Qed.




(** * Errors under [--silent] *)

(** C10.  In create, update, delete and rollback, a failed request is
    reported with its cause and message and the process exits with status 1,
    whatever [--silent] says; [--silent] only decides, after a successful
    request, whether the result is rendered (for delete: whether the list is
    fetched and rendered). *)
Theorem silent_keeps_api_errors (w : World) (given : list (string * Value))
    (cmd : Command) (args : list string) :
  let lc := configuration_LocalConfig w cmd in
  let host := APIHost lc in
  let tls := verify w cmd in
  let silent := flagBool cmd "silent" in
  let failed := fun (c : ApiCall) (err : Error) =>
    ([EvApi c; EvErr (Unwrap err) [Message err]], Exited 1) : M unit in
  (ParseFlags given Enclave.configsCreateCmd = Some cmd ->
   let name := resolved args (flagString cmd "name") in
   let environment := derivedEnvironment (flagString cmd "environment") name in
   let c := CreateConfig host tls (Token lc) (Project_ lc) name environment
              (negb (flagBool cmd "no-defaults")) in
   name ≠ "" -> environment ≠ "" ->
   Enclave.configsCreateCmd_Run w cmd args
   = if IsNil (configResult w c).2
     then (EvApi c :: (if silent then []
                       else [EvPrintConfigInfo (configResult w c).1 (utils_JSON w)]),
           Returned tt)
     else failed c (configResult w c).2)
  /\ (ParseFlags given Enclave.configsUpdateCmd = Some cmd ->
      let c := UpdateConfig host tls (Token lc) (Project_ lc)
                 (resolved args (Config lc)) (flagString cmd "name") in
      Enclave.configsUpdateCmd_Run w cmd args
      = if IsNil (configResult w c).2
        then (EvApi c :: (if silent then []
                          else [EvPrintConfigInfo (configResult w c).1 (utils_JSON w)]),
              Returned tt)
        else failed c (configResult w c).2)
  /\ (ParseFlags given Enclave.configsLogsRollbackCmd = Some cmd ->
      let c := RollbackConfigLog host tls (Token lc) (Project_ lc) (Config lc)
                 (resolved args (flagString cmd "log")) in
      Enclave.configsLogsRollbackCmd_Run w cmd args
      = if IsNil (logResult w c).2
        then (EvApi c :: (if silent then []
                          else [EvPrintLog (logResult w c).1 (utils_JSON w)]),
              Returned tt)
        else failed c (logResult w c).2)
  /\ (ParseFlags given Enclave.configsDeleteCmd = Some cmd ->
      let message := "Delete config " +:+ resolved args (Config lc) in
      flagBool cmd "yes" || promptAnswer w message false = true ->
      let prompt := if flagBool cmd "yes" then []
                    else [EvConfirmationPrompt message false true] in
      let del := DeleteConfig host tls (Token lc) (Project_ lc)
                   (resolved args (Config lc)) in
      let lst := GetConfigs host tls (Token lc) (Project_ lc) in
      let rest :=
        if IsNil (deleteResult w del)
        then if silent then ([EvApi del], Returned tt)
             else if IsNil (configsResult w lst).2
             then ([EvApi del; EvApi lst;
                    EvPrintConfigsInfo (configsResult w lst).1 (utils_JSON w)],
                   Returned tt)
             else ([EvApi del; EvApi lst;
                    EvErr (Unwrap (configsResult w lst).2)
                          [Message (configsResult w lst).2]], Exited 1)
        else failed del (deleteResult w del) in
      Enclave.configsDeleteCmd_Run w cmd args = (prompt ++ rest.1, rest.2)).
Proof.
  intros lc host tls silent failed. split_and!.
  - intros Hp name environment c Hn He. rewrite (create_run _ _ _ _ Hp). cbv zeta.
    fold lc host tls name environment c.
    apply String.eqb_neq in Hn, He. by rewrite Hn, He.
  - intros Hp c. by rewrite (update_run _ _ _ _ Hp).
  - intros Hp c. by rewrite (rollback_run _ _ _ _ Hp).
  - intros Hp message Hc prompt del lst rest. rewrite (delete_run _ _ _ _ Hp).
    cbv zeta. fold lc host tls message del lst. rewrite Hc.
    subst rest prompt failed silent.
    destruct (flagBool cmd "yes"); simpl in Hc; [|rewrite Hc];
      destruct (IsNil (deleteResult w del)), (flagBool cmd "silent"); try done;
      by destruct (IsNil (configsResult w lst).2).
Qed.

Lemma silent_keeps_api_errors_witness :
  let w := exampleWorld false apiFailure in
  let silent := [("silent", boolValue true)] in
  let report := EvErr (Some "404 Not Found") ["Unable to reach the config"] in
  Enclave.configsCreateCmd_Run w (parsedCommand silent Enclave.configsCreateCmd)
    ["backend_dev"]
  = ([EvApi (CreateConfig "https://api.doppler.com" true "token" "backend"
               "backend_dev" "backend" true); report], Exited 1)
  /\ Enclave.configsUpdateCmd_Run w (parsedCommand silent Enclave.configsUpdateCmd)
       ["staging"]
     = ([EvApi (UpdateConfig "https://api.doppler.com" true "token" "backend"
                  "staging" ""); report], Exited 1)
  /\ Enclave.configsLogsRollbackCmd_Run w
       (parsedCommand silent Enclave.configsLogsRollbackCmd) ["log-9"]
     = ([EvApi (RollbackConfigLog "https://api.doppler.com" true "token" "backend"
                  "dev" "log-9"); report], Exited 1)
  /\ Enclave.configsDeleteCmd_Run w
       (parsedCommand (("yes", boolValue true) :: silent) Enclave.configsDeleteCmd)
       ["staging"]
     = ([EvApi (DeleteConfig "https://api.doppler.com" true "token" "backend"
                  "staging"); report], Exited 1).
Proof.
  intros w silent report. split_and!.
  - refine (proj1 (silent_keeps_api_errors w silent
                     (parsedCommand silent Enclave.configsCreateCmd)
                     ["backend_dev"]) eq_refl _ _); discriminate.
  - exact (proj1 (proj2 (silent_keeps_api_errors w silent
                           (parsedCommand silent Enclave.configsUpdateCmd)
                           ["staging"])) eq_refl).
  - exact (proj1 (proj2 (proj2 (silent_keeps_api_errors w silent
                           (parsedCommand silent Enclave.configsLogsRollbackCmd)
                           ["log-9"]))) eq_refl).
  - exact (proj2 (proj2 (proj2 (silent_keeps_api_errors w
                           (("yes", boolValue true) :: silent)
                           (parsedCommand (("yes", boolValue true) :: silent)
                              Enclave.configsDeleteCmd)
                           ["staging"]))) eq_refl eq_refl).
Defined.

(** * Further properties of the command bodies *)

(** ** Shared lemmas *)

Lemma flagBool_not_given (given : list (string * Value)) (n : string)
    (c cmd : Command) :
  ParseFlags given c = Some cmd -> n ∉ given.*1 -> flagBool cmd n = flagBool c n.
Proof.
  intros Hp Hn. unfold flagBool. by rewrite (ParseFlags_not_given _ _ _ _ Hp Hn).
Qed.

Lemma Execute_args_rejected (c : Command) (run : Command -> list string -> M unit)
    (given : list (string * Value)) (args : list string) :
  Args c args = false -> rejected (Execute c run given args).
Proof.
  intros Ha. unfold rejected, Execute.
  destruct (ParseFlags given c) as [cmd|] eqn:Hp; [|done].
  by rewrite (ParseFlags_Args _ _ _ Hp), Ha.
Qed.

Lemma Execute_required_missing (c : Command) (run : Command -> list string -> M unit)
    (given : list (string * Value)) (args : list string) (n : string) (f : Flag) :
  Flags c !! n = Some f -> Required f = true -> Changed f = false ->
  n ∉ given.*1 -> rejected (Execute c run given args).
Proof.
  intros Hf Hr Hc Hn. unfold rejected, Execute.
  destruct (ParseFlags given c) as [cmd|] eqn:Hp; [|done].
  destruct (Args cmd args); simpl; [|done].
  assert (Hin : n ∈ missingRequired cmd).
  { eapply missingRequired_elem; [|done..].
    by rewrite (ParseFlags_not_given _ _ _ _ Hp Hn). }
  destruct (missingRequired cmd); [by apply elem_of_nil in Hin | done].
Qed.

Lemma printConfigInfo_outcome (w : World) (info : ConfigInfo) (jsonFlag : bool) :
  outcome (Legacy.printConfigInfo w info jsonFlag) = Returned tt
  \/ outcome (Legacy.printConfigInfo w info jsonFlag) = Exited 1.
Proof.
  destruct jsonFlag.
  - rewrite printConfigInfo_json. destruct (json_Marshal_config w info).2; auto.
  - rewrite printConfigInfo_table. auto.
Qed.

Lemma printConfigsInfo_outcome (w : World) (info : list ConfigInfo) (jsonFlag : bool) :
  outcome (Legacy.printConfigsInfo w info jsonFlag) = Returned tt
  \/ outcome (Legacy.printConfigsInfo w info jsonFlag) = Exited 1.
Proof.
  destruct jsonFlag.
  - rewrite printConfigsInfo_json. destruct (json_Marshal_configs w info).2; auto.
  - rewrite printConfigsInfo_table. auto.
Qed.

(** Closes [endsCleanly] on a run whose trace and outcome are explicit. *)
Ltac ends :=
  first
    [ left; split; reflexivity
    | right; split; [reflexivity|];
      first [ by eexists [], _, _ | by eexists [_], _, _
            | by eexists [_; _], _, _ | by eexists [_; _; _], _, _ ] ].

(** ** No panic *)

(** X1.  On a command line that parses against the flags [init] registers
    for it, no command body of the later file panics: every flag a body
    reads is registered with the type it is read at, [args[0]] is only read
    when there is an argument, and the slice of the name stays in range. *)
Theorem later_bodies_never_panic (w : World) (given : list (string * Value))
    (cmd : Command) (args : list string) :
  outcome (Enclave.configsCmd_Run w cmd args) ≠ Panicked
  /\ outcome (Enclave.configsGetCmd_Run w cmd args) ≠ Panicked
  /\ outcome (Enclave.configsLogsCmd_Run w cmd args) ≠ Panicked
  /\ (ParseFlags given Enclave.configsCreateCmd = Some cmd ->
      outcome (Enclave.configsCreateCmd_Run w cmd args) ≠ Panicked)
  /\ (ParseFlags given Enclave.configsDeleteCmd = Some cmd ->
      outcome (Enclave.configsDeleteCmd_Run w cmd args) ≠ Panicked)
  /\ (ParseFlags given Enclave.configsUpdateCmd = Some cmd ->
      outcome (Enclave.configsUpdateCmd_Run w cmd args) ≠ Panicked)
  /\ (ParseFlags given Enclave.configsLogsGetCmd = Some cmd ->
      outcome (Enclave.configsLogsGetCmd_Run w cmd args) ≠ Panicked)
  /\ (ParseFlags given Enclave.configsLogsRollbackCmd = Some cmd ->
      outcome (Enclave.configsLogsRollbackCmd_Run w cmd args) ≠ Panicked).
Proof.
  split_and!; [| | |intros Hp..].
  - rewrite list_run. cbv zeta. by destruct (IsNil _).
  - rewrite get_run. cbv zeta. by destruct (IsNil _).
  - rewrite logs_run. cbv zeta.
    destruct (intFlagAnswer w cmd "number" 16); [|done]. by destruct (IsNil _).
  - rewrite (create_run _ _ _ _ Hp). cbv zeta.
    destruct (_ =? "")%string; [done|]. destruct (_ =? "")%string; [done|].
    by destruct (IsNil _).
  - rewrite (delete_run _ _ _ _ Hp). cbv zeta.
    destruct (_ || _); [|done]. destruct (IsNil (deleteResult w _)); [|done].
    destruct (flagBool cmd "silent"); [done|]. by destruct (IsNil _).
  - rewrite (update_run _ _ _ _ Hp). cbv zeta. by destruct (IsNil _).
  - rewrite (logsGet_run _ _ _ _ Hp). cbv zeta. by destruct (IsNil _).
  - rewrite (rollback_run _ _ _ _ Hp). cbv zeta. by destruct (IsNil _).
Qed.

Lemma later_bodies_never_panic_witness :
  let w := exampleWorld true noError in
  let line := [("silent", boolValue true)] in
  outcome (Enclave.configsCreateCmd_Run w
             (parsedCommand line Enclave.configsCreateCmd) ["backend_dev"]) ≠ Panicked
  /\ outcome (Enclave.configsDeleteCmd_Run w
                (parsedCommand line Enclave.configsDeleteCmd) []) ≠ Panicked
  /\ outcome (Enclave.configsUpdateCmd_Run w
                (parsedCommand line Enclave.configsUpdateCmd) ["staging"]) ≠ Panicked
  /\ outcome (Enclave.configsLogsGetCmd_Run w
                (parsedCommand [] Enclave.configsLogsGetCmd) []) ≠ Panicked
  /\ outcome (Enclave.configsLogsRollbackCmd_Run w
                (parsedCommand line Enclave.configsLogsRollbackCmd) ["log-9"])
     ≠ Panicked.
Proof.
  intros w line. split_and!.
  - exact (proj1 (proj2 (proj2 (proj2 (later_bodies_never_panic w line
             (parsedCommand line Enclave.configsCreateCmd) ["backend_dev"]))))
             eq_refl).
  - exact (proj1 (proj2 (proj2 (proj2 (proj2 (later_bodies_never_panic w line
             (parsedCommand line Enclave.configsDeleteCmd) [])))))
             eq_refl).
  - exact (proj1 (proj2 (proj2 (proj2 (proj2 (proj2 (later_bodies_never_panic w line
             (parsedCommand line Enclave.configsUpdateCmd) ["staging"]))))))
             eq_refl).
  - exact (proj1 (proj2 (proj2 (proj2 (proj2 (proj2 (proj2
             (later_bodies_never_panic w []
                (parsedCommand [] Enclave.configsLogsGetCmd) [])))))))
             eq_refl).
  - exact (proj2 (proj2 (proj2 (proj2 (proj2 (proj2 (proj2
             (later_bodies_never_panic w line
                (parsedCommand line Enclave.configsLogsRollbackCmd) ["log-9"])))))))
             eq_refl).
Defined.

(** X2.  The same for the earlier file. *)
Theorem earlier_bodies_never_panic (w : World) (given : list (string * Value))
    (cmd : Command) (args : list string) :
  (ParseFlags given Legacy.configsCmd = Some cmd ->
   outcome (Legacy.configsCmd_Run w cmd args) ≠ Panicked)
  /\ (ParseFlags given Legacy.configsGetCmd = Some cmd ->
      outcome (Legacy.configsGetCmd_Run w cmd args) ≠ Panicked)
  /\ (ParseFlags given Legacy.configsCreateCmd = Some cmd ->
      outcome (Legacy.configsCreateCmd_Run w cmd args) ≠ Panicked)
  /\ (ParseFlags given Legacy.configsUpdateCmd = Some cmd ->
      outcome (Legacy.configsUpdateCmd_Run w cmd args) ≠ Panicked)
  /\ (ParseFlags given Legacy.configsDeleteCmd = Some cmd ->
      outcome (Legacy.configsDeleteCmd_Run w cmd args) ≠ Panicked).
Proof.
  split_and!; intros Hp.
  - rewrite (legacy_list_run _ _ _ _ Hp). cbv zeta. simpl.
    by destruct (printConfigsInfo_outcome w
                   (legacyConfigsResult w
                      (GetAPIConfigs (Key (configuration_LocalConfig w cmd))
                         (Project_ (configuration_LocalConfig w cmd))))
                   (flagBool cmd "json")) as [-> | ->].
  - rewrite (legacy_get_run _ _ _ _ Hp). cbv zeta. simpl.
    match goal with |- outcome (Legacy.printConfigInfo ?w ?i ?j) ≠ _ =>
      by destruct (printConfigInfo_outcome w i j) as [-> | ->] end.
  - rewrite (legacy_create_run _ _ _ _ Hp). cbv zeta.
    destruct (flagBool cmd "silent"); [done|]. simpl.
    match goal with |- outcome (Legacy.printConfigInfo ?w ?i ?j) ≠ _ =>
      by destruct (printConfigInfo_outcome w i j) as [-> | ->] end.
  - rewrite (legacy_update_run _ _ _ _ Hp). cbv zeta.
    destruct (flagBool cmd "silent"); [done|]. simpl.
    match goal with |- outcome (Legacy.printConfigInfo ?w ?i ?j) ≠ _ =>
      by destruct (printConfigInfo_outcome w i j) as [-> | ->] end.
  - rewrite (legacy_delete_run _ _ _ _ Hp). cbv zeta.
    destruct (flagBool cmd "silent"); [done|]. simpl.
    match goal with |- outcome (Legacy.printConfigsInfo ?w ?i ?j) ≠ _ =>
      by destruct (printConfigsInfo_outcome w i j) as [-> | ->] end.
Qed.

Lemma earlier_bodies_never_panic_witness :
  let w := exampleWorld true noError in
  let line := [("json", boolValue true)] in
  outcome (Legacy.configsCmd_Run w (parsedCommand line Legacy.configsCmd) []) ≠ Panicked
  /\ outcome (Legacy.configsGetCmd_Run w
                (parsedCommand line Legacy.configsGetCmd) ["staging"]) ≠ Panicked
  /\ outcome (Legacy.configsCreateCmd_Run w
                (parsedCommand line Legacy.configsCreateCmd) []) ≠ Panicked
  /\ outcome (Legacy.configsUpdateCmd_Run w
                (parsedCommand line Legacy.configsUpdateCmd) []) ≠ Panicked
  /\ outcome (Legacy.configsDeleteCmd_Run w
                (parsedCommand line Legacy.configsDeleteCmd) ["staging"]) ≠ Panicked.
Proof.
  intros w line. split_and!.
  - exact (proj1 (earlier_bodies_never_panic w line
             (parsedCommand line Legacy.configsCmd) []) eq_refl).
  - exact (proj1 (proj2 (earlier_bodies_never_panic w line
             (parsedCommand line Legacy.configsGetCmd) ["staging"])) eq_refl).
  - exact (proj1 (proj2 (proj2 (earlier_bodies_never_panic w line
             (parsedCommand line Legacy.configsCreateCmd) []))) eq_refl).
  - exact (proj1 (proj2 (proj2 (proj2 (earlier_bodies_never_panic w line
             (parsedCommand line Legacy.configsUpdateCmd) [])))) eq_refl).
  - exact (proj2 (proj2 (proj2 (proj2 (earlier_bodies_never_panic w line
             (parsedCommand line Legacy.configsDeleteCmd) ["staging"])))) eq_refl).
Defined.

(** ** Errors end the run *)

(** X3.  Every command body of the later file ends cleanly: either it
    returns and has reported no error, or it exits with status 1 right after
    its only error report, and then nothing was rendered before it.  A
    non-zero exit never comes with partial output. *)
Theorem later_error_ends_run (w : World) (given : list (string * Value))
    (cmd : Command) (args : list string) :
  endsCleanly (Enclave.configsCmd_Run w cmd args)
  /\ endsCleanly (Enclave.configsGetCmd_Run w cmd args)
  /\ endsCleanly (Enclave.configsLogsCmd_Run w cmd args)
  /\ (ParseFlags given Enclave.configsCreateCmd = Some cmd ->
      endsCleanly (Enclave.configsCreateCmd_Run w cmd args))
  /\ (ParseFlags given Enclave.configsDeleteCmd = Some cmd ->
      endsCleanly (Enclave.configsDeleteCmd_Run w cmd args))
  /\ (ParseFlags given Enclave.configsUpdateCmd = Some cmd ->
      endsCleanly (Enclave.configsUpdateCmd_Run w cmd args))
  /\ (ParseFlags given Enclave.configsLogsGetCmd = Some cmd ->
      endsCleanly (Enclave.configsLogsGetCmd_Run w cmd args))
  /\ (ParseFlags given Enclave.configsLogsRollbackCmd = Some cmd ->
      endsCleanly (Enclave.configsLogsRollbackCmd_Run w cmd args)).
Proof.
  unfold endsCleanly. split_and!; [| | |intros Hp..].
  - rewrite list_run. cbv zeta. destruct (IsNil _); ends.
  - rewrite get_run. cbv zeta. destruct (IsNil _); ends.
  - rewrite logs_run. cbv zeta.
    destruct (intFlagAnswer w cmd "number" 16); [|ends]. destruct (IsNil _); ends.
  - rewrite (create_run _ _ _ _ Hp). cbv zeta.
    destruct (_ =? "")%string; [ends|]. destruct (_ =? "")%string; [ends|].
    destruct (IsNil _); [|ends]. destruct (flagBool cmd "silent"); ends.
  - rewrite (delete_run _ _ _ _ Hp). cbv zeta.
    destruct (flagBool cmd "yes"), (promptAnswer w _ false); simpl;
      try ends;
      (destruct (IsNil (deleteResult w _)); [|ends];
       destruct (flagBool cmd "silent"); [ends|]; destruct (IsNil _); ends).
  - rewrite (update_run _ _ _ _ Hp). cbv zeta.
    destruct (IsNil _); [|ends]. destruct (flagBool cmd "silent"); ends.
  - rewrite (logsGet_run _ _ _ _ Hp). cbv zeta. destruct (IsNil _); ends.
  - rewrite (rollback_run _ _ _ _ Hp). cbv zeta.
    destruct (IsNil _); [|ends]. destruct (flagBool cmd "silent"); ends.
Qed.

Lemma later_error_ends_run_witness :
  let w := exampleWorld true apiFailure in
  endsCleanly (Enclave.configsCreateCmd_Run w Enclave.configsCreateCmd ["backend_dev"])
  /\ endsCleanly (Enclave.configsDeleteCmd_Run w Enclave.configsDeleteCmd ["staging"])
  /\ endsCleanly (Enclave.configsUpdateCmd_Run w Enclave.configsUpdateCmd ["staging"])
  /\ endsCleanly (Enclave.configsLogsGetCmd_Run w Enclave.configsLogsGetCmd ["log-9"])
  /\ endsCleanly (Enclave.configsLogsRollbackCmd_Run w Enclave.configsLogsRollbackCmd
                    ["log-9"]).
Proof.
  intros w. split_and!.
  - exact (proj1 (proj2 (proj2 (proj2 (later_error_ends_run w []
             Enclave.configsCreateCmd ["backend_dev"])))) eq_refl).
  - exact (proj1 (proj2 (proj2 (proj2 (proj2 (later_error_ends_run w []
             Enclave.configsDeleteCmd ["staging"]))))) eq_refl).
  - exact (proj1 (proj2 (proj2 (proj2 (proj2 (proj2 (later_error_ends_run w []
             Enclave.configsUpdateCmd ["staging"])))))) eq_refl).
  - exact (proj1 (proj2 (proj2 (proj2 (proj2 (proj2 (proj2 (later_error_ends_run w []
             Enclave.configsLogsGetCmd ["log-9"]))))))) eq_refl).
  - exact (proj2 (proj2 (proj2 (proj2 (proj2 (proj2 (proj2 (later_error_ends_run w []
             Enclave.configsLogsRollbackCmd ["log-9"]))))))) eq_refl).
Defined.

(** ** Requests per invocation *)

(** X4.  A command body of the later file sends at most one request, except
    delete, which sends at most two.  List, get, update, logs get and logs
    rollback send exactly one; create sends none when its validation fails;
    logs sends none when [utils.GetIntFlag] rejects [--number], else one. *)
Theorem later_request_budget (w : World) (given : list (string * Value))
    (cmd : Command) (args : list string) :
  let requests := fun m : M unit => length (apiCalls (trace m)) in
  requests (Enclave.configsCmd_Run w cmd args) = 1%nat
  /\ requests (Enclave.configsGetCmd_Run w cmd args) = 1%nat
  /\ requests (Enclave.configsLogsCmd_Run w cmd args)
     = (if intFlagAnswer w cmd "number" 16 is inl _ then 1 else 0)%nat
  /\ (ParseFlags given Enclave.configsCreateCmd = Some cmd ->
      let name := resolved args (flagString cmd "name") in
      requests (Enclave.configsCreateCmd_Run w cmd args)
      = (if (name =? "")%string
            || (derivedEnvironment (flagString cmd "environment") name =? "")%string
         then 0 else 1)%nat)
  /\ (ParseFlags given Enclave.configsDeleteCmd = Some cmd ->
      (requests (Enclave.configsDeleteCmd_Run w cmd args) <= 2)%nat)
  /\ (ParseFlags given Enclave.configsUpdateCmd = Some cmd ->
      requests (Enclave.configsUpdateCmd_Run w cmd args) = 1%nat)
  /\ (ParseFlags given Enclave.configsLogsGetCmd = Some cmd ->
      requests (Enclave.configsLogsGetCmd_Run w cmd args) = 1%nat)
  /\ (ParseFlags given Enclave.configsLogsRollbackCmd = Some cmd ->
      requests (Enclave.configsLogsRollbackCmd_Run w cmd args) = 1%nat).
Proof.
  intros requests. subst requests. split_and!; [| | |intros Hp..].
  - rewrite list_run. cbv zeta. by destruct (IsNil _).
  - rewrite get_run. cbv zeta. by destruct (IsNil _).
  - rewrite logs_run. cbv zeta.
    destruct (intFlagAnswer w cmd "number" 16); [|done]. by destruct (IsNil _).
  - intros name. rewrite (create_run _ _ _ _ Hp). cbv zeta. fold name.
    destruct (name =? "")%string; [done|].
    destruct (_ =? "")%string; [done|].
    by destruct (IsNil _), (flagBool cmd "silent").
  - rewrite (delete_run _ _ _ _ Hp). cbv zeta.
    destruct (flagBool cmd "yes"), (promptAnswer w _ false),
      (IsNil (deleteResult w _)), (flagBool cmd "silent"); simpl; try lia;
      destruct (IsNil _); simpl; lia.
  - rewrite (update_run _ _ _ _ Hp). cbv zeta.
    by destruct (IsNil _), (flagBool cmd "silent").
  - rewrite (logsGet_run _ _ _ _ Hp). cbv zeta. by destruct (IsNil _).
  - rewrite (rollback_run _ _ _ _ Hp). cbv zeta.
    by destruct (IsNil _), (flagBool cmd "silent").
Qed.

Lemma later_request_budget_witness :
  let w := exampleWorld true noError in
  let requests := fun m : M unit => length (apiCalls (trace m)) in
  requests (Enclave.configsCreateCmd_Run w Enclave.configsCreateCmd ["backend_dev"])
  = 1%nat
  /\ (requests (Enclave.configsDeleteCmd_Run w Enclave.configsDeleteCmd ["staging"])
      <= 2)%nat
  /\ requests (Enclave.configsUpdateCmd_Run w Enclave.configsUpdateCmd ["staging"])
     = 1%nat
  /\ requests (Enclave.configsLogsGetCmd_Run w Enclave.configsLogsGetCmd ["log-9"])
     = 1%nat
  /\ requests (Enclave.configsLogsRollbackCmd_Run w Enclave.configsLogsRollbackCmd
                 ["log-9"]) = 1%nat.
Proof.
  intros w requests. split_and!.
  - exact (proj1 (proj2 (proj2 (proj2 (later_request_budget w []
             Enclave.configsCreateCmd ["backend_dev"])))) eq_refl).
  - exact (proj1 (proj2 (proj2 (proj2 (proj2 (later_request_budget w []
             Enclave.configsDeleteCmd ["staging"]))))) eq_refl).
  - exact (proj1 (proj2 (proj2 (proj2 (proj2 (proj2 (later_request_budget w []
             Enclave.configsUpdateCmd ["staging"])))))) eq_refl).
  - exact (proj1 (proj2 (proj2 (proj2 (proj2 (proj2 (proj2 (later_request_budget w []
             Enclave.configsLogsGetCmd ["log-9"]))))))) eq_refl).
  - exact (proj2 (proj2 (proj2 (proj2 (proj2 (proj2 (proj2 (later_request_budget w []
             Enclave.configsLogsRollbackCmd ["log-9"]))))))) eq_refl).
Defined.

(** The logs command on its own command line: [--number 3] reaches the
    renderer as 3; a number that does not fit 16 bits is rejected before any
    request is sent. *)
Example logs_number_3 :
  Enclave.configsLogsCmd_Run (exampleWorld false noError)
    (parsedCommand [("number", intValue 3)] Enclave.configsLogsCmd) []
  = ([EvApi (GetConfigLogs "https://api.doppler.com" true "token" "backend" "dev");
      EvPrintLogs [mkLog "log-1"] 3 false], Returned tt).
Proof. vm_compute. reflexivity. Qed.

Example logs_number_40000 :
  Enclave.configsLogsCmd_Run (exampleWorld false noError)
    (parsedCommand [("number", intValue 40000)] Enclave.configsLogsCmd) []
  = ([EvErr (Some "value out of range") []], Exited 1).
Proof. vm_compute. reflexivity. Qed.

(** ** More on create *)

(** X5.  In the later file an [--environment] that is not empty wins over
    the derivation: with a name that is not empty, the derivation step
    leaves the flag as it is and the request carries it verbatim, whatever
    underscores the name has. *)
Theorem create_explicit_environment (w : World) (given : list (string * Value))
    (cmd : Command) (args : list string) :
  ParseFlags given Enclave.configsCreateCmd = Some cmd ->
  let name := resolved args (flagString cmd "name") in
  let environment := flagString cmd "environment" in
  let lc := configuration_LocalConfig w cmd in
  name ≠ "" -> environment ≠ "" ->
  Enclave.deriveEnvironment environment name = mret environment
  /\ apiCalls (trace (Enclave.configsCreateCmd_Run w cmd args))
     = [CreateConfig (APIHost lc) (verify w cmd) (Token lc) (Project_ lc)
          name environment (negb (flagBool cmd "no-defaults"))].
Proof.
  intros Hp name environment lc Hn He.
  assert (Hd : derivedEnvironment environment name = environment).
  { unfold derivedEnvironment. apply String.eqb_neq in He. by rewrite He. }
  split; [by rewrite deriveEnvironment_spec, Hd|].
  rewrite (create_run _ _ _ _ Hp). cbv zeta. fold name environment lc.
  rewrite Hd. apply String.eqb_neq in Hn, He. rewrite Hn, He.
  by destruct (IsNil _), (flagBool cmd "silent").
Qed.

Lemma create_explicit_environment_witness :
  let line := [("environment", stringValue "prd")] in
  apiCalls (trace (Enclave.configsCreateCmd_Run (exampleWorld false noError)
                     (parsedCommand line Enclave.configsCreateCmd) ["backend_dev"]))
  = [CreateConfig "https://api.doppler.com" true "token" "backend"
       "backend_dev" "prd" true].
Proof.
  intros line.
  refine (proj2 (create_explicit_environment (exampleWorld false noError) line
                   (parsedCommand line Enclave.configsCreateCmd) ["backend_dev"]
                   eq_refl _ _)); discriminate.
Defined.

(** X6.  A create command line that does not mention the flag asks for the
    environment's default secrets: in the later file ([--no-defaults] is
    registered as [false] and negated) the request, when one is sent,
    carries [true]; in the earlier file ([--defaults] is registered as
    [true]) the request carries [true]. *)
Theorem create_populates_by_default (w : World) (given : list (string * Value))
    (cmd : Command) (args : list string) :
  let lc := configuration_LocalConfig w cmd in
  let name := resolved args (flagString cmd "name") in
  (ParseFlags given Enclave.configsCreateCmd = Some cmd ->
   "no-defaults" ∉ given.*1 ->
   let environment := derivedEnvironment (flagString cmd "environment") name in
   apiCalls (trace (Enclave.configsCreateCmd_Run w cmd args))
   = if (name =? "")%string || (environment =? "")%string then []
     else [CreateConfig (APIHost lc) (verify w cmd) (Token lc) (Project_ lc)
             name environment true])
  /\ (ParseFlags given Legacy.configsCreateCmd = Some cmd ->
      "defaults" ∉ given.*1 ->
      apiCalls (trace (Legacy.configsCreateCmd_Run w cmd args))
      = [CreateAPIConfig (Key lc) (Project_ lc) name
           (flagString cmd "environment") true]).
Proof.
  intros lc name. split.
  - intros Hp Hn environment. rewrite (create_run _ _ _ _ Hp). cbv zeta.
    fold lc name environment. rewrite (flagBool_not_given _ _ _ _ Hp Hn).
    destruct (_ =? "")%string; [done|]. destruct (_ =? "")%string; [done|].
    by destruct (IsNil _), (flagBool cmd "silent").
  - intros Hp Hn. rewrite (legacy_create_run _ _ _ _ Hp). cbv zeta.
    fold lc name. rewrite (flagBool_not_given _ _ _ _ Hp Hn).
    destruct (flagBool cmd "silent"); simpl; [done|].
    by rewrite printConfigInfo_no_request.
Qed.

Lemma create_populates_by_default_witness :
  let w := exampleWorld false noError in
  let line := [("environment", stringValue "prd")] in
  apiCalls (trace (Enclave.configsCreateCmd_Run w
                     (parsedCommand line Enclave.configsCreateCmd) ["backend_dev"]))
  = [CreateConfig "https://api.doppler.com" true "token" "backend"
       "backend_dev" "prd" true]
  /\ apiCalls (trace (Legacy.configsCreateCmd_Run w
                        (parsedCommand line Legacy.configsCreateCmd) ["backend_dev"]))
     = [CreateAPIConfig "key" "backend" "backend_dev" "prd" true].
Proof.
  intros w line.
  assert (Hno : forall n, n ≠ "environment" -> n ∉ line.*1).
  { intros n Hne Hin. apply list_elem_of_singleton in Hin. by apply Hne. }
  split.
  - refine (proj1 (create_populates_by_default w line
                     (parsedCommand line Enclave.configsCreateCmd) ["backend_dev"])
              eq_refl (Hno _ _)). discriminate.
  - refine (proj2 (create_populates_by_default w line
                     (parsedCommand line Legacy.configsCreateCmd) ["backend_dev"])
              eq_refl (Hno _ _)). discriminate.
Defined.

(** ** Positional arguments and required flags under [Execute] *)

(** X7.  The commands of the earlier file declare no [Args] validator, so
    extra positional arguments are accepted and ignored: get, create, update
    and delete behave as if only the first argument had been given, and the
    list command as if none had. *)
Theorem earlier_ignores_extra_arguments (w : World) (given : list (string * Value))
    (a : string) (rest : list string) :
  Execute Legacy.configsGetCmd (Legacy.configsGetCmd_Run w) given (a :: rest)
  = Execute Legacy.configsGetCmd (Legacy.configsGetCmd_Run w) given [a]
  /\ Execute Legacy.configsCreateCmd (Legacy.configsCreateCmd_Run w) given (a :: rest)
     = Execute Legacy.configsCreateCmd (Legacy.configsCreateCmd_Run w) given [a]
  /\ Execute Legacy.configsUpdateCmd (Legacy.configsUpdateCmd_Run w) given (a :: rest)
     = Execute Legacy.configsUpdateCmd (Legacy.configsUpdateCmd_Run w) given [a]
  /\ Execute Legacy.configsDeleteCmd (Legacy.configsDeleteCmd_Run w) given (a :: rest)
     = Execute Legacy.configsDeleteCmd (Legacy.configsDeleteCmd_Run w) given [a]
  /\ Execute Legacy.configsCmd (Legacy.configsCmd_Run w) given (a :: rest)
     = Execute Legacy.configsCmd (Legacy.configsCmd_Run w) given [].
Proof.
  unfold Execute. split_and!.
  - destruct (ParseFlags given Legacy.configsGetCmd) as [cmd|] eqn:Hp; [|done].
    rewrite (ParseFlags_Args _ _ _ Hp). simpl.
    by rewrite !(legacy_get_run _ _ _ _ Hp).
  - destruct (ParseFlags given Legacy.configsCreateCmd) as [cmd|] eqn:Hp; [|done].
    rewrite (ParseFlags_Args _ _ _ Hp). simpl.
    by rewrite !(legacy_create_run _ _ _ _ Hp).
  - destruct (ParseFlags given Legacy.configsUpdateCmd) as [cmd|] eqn:Hp; [|done].
    rewrite (ParseFlags_Args _ _ _ Hp). simpl.
    by rewrite !(legacy_update_run _ _ _ _ Hp).
  - destruct (ParseFlags given Legacy.configsDeleteCmd) as [cmd|] eqn:Hp; [|done].
    rewrite (ParseFlags_Args _ _ _ Hp). simpl.
    by rewrite !(legacy_delete_run _ _ _ _ Hp).
  - destruct (ParseFlags given Legacy.configsCmd) as [cmd|] eqn:Hp; [|done].
    rewrite (ParseFlags_Args _ _ _ Hp). simpl.
    by rewrite !(legacy_list_run _ _ _ _ Hp).
Qed.

(** X8.  In the later file the validators stop such command lines before
    the body: a second positional argument to get, create, update, delete,
    logs get or logs rollback ([cobra.MaximumNArgs(1)]), or any positional
    argument to the list or logs command ([cobra.NoArgs]), yields no event
    and exit status 1. *)
Theorem later_rejects_extra_arguments (w : World) (given : list (string * Value))
    (a b : string) (rest : list string) :
  let two := a :: b :: rest in
  let one := a :: rest in
  rejected (Execute Enclave.configsGetCmd (Enclave.configsGetCmd_Run w) given two)
  /\ rejected (Execute Enclave.configsCreateCmd (Enclave.configsCreateCmd_Run w)
                 given two)
  /\ rejected (Execute Enclave.configsUpdateCmd (Enclave.configsUpdateCmd_Run w)
                 given two)
  /\ rejected (Execute Enclave.configsDeleteCmd (Enclave.configsDeleteCmd_Run w)
                 given two)
  /\ rejected (Execute Enclave.configsLogsGetCmd (Enclave.configsLogsGetCmd_Run w)
                 given two)
  /\ rejected (Execute Enclave.configsLogsRollbackCmd
                 (Enclave.configsLogsRollbackCmd_Run w) given two)
  /\ rejected (Execute Enclave.configsCmd (Enclave.configsCmd_Run w) given one)
  /\ rejected (Execute Enclave.configsLogsCmd (Enclave.configsLogsCmd_Run w) given one).
Proof.
  intros two one.
  assert (Hmax : cobra_MaximumNArgs 1 two = false).
  { unfold cobra_MaximumNArgs, two. apply Z.leb_gt. simpl length. lia. }
  assert (Hno : cobra_NoArgs one = false) by done.
  split_and!; by apply Execute_args_rejected.
Qed.

(** X9.  The update command marks [--name] as required in both files: a
    command line without [--name] yields no event and exit status 1. *)
Theorem update_requires_name (w : World) (given : list (string * Value))
    (args : list string) :
  "name" ∉ given.*1 ->
  rejected (Execute Enclave.configsUpdateCmd (Enclave.configsUpdateCmd_Run w)
              given args)
  /\ rejected (Execute Legacy.configsUpdateCmd (Legacy.configsUpdateCmd_Run w)
                 given args).
Proof.
  intros Hn. split.
  - eapply (Execute_required_missing _ _ _ _ "name"); [vm_compute; reflexivity|done..].
  - eapply (Execute_required_missing _ _ _ _ "name"); [vm_compute; reflexivity|done..].
Qed.

Lemma update_requires_name_witness :
  let w := exampleWorld false noError in
  let line := [("silent", boolValue true)] in
  rejected (Execute Enclave.configsUpdateCmd (Enclave.configsUpdateCmd_Run w)
              line ["staging"])
  /\ rejected (Execute Legacy.configsUpdateCmd (Legacy.configsUpdateCmd_Run w)
                 line ["staging"]).
Proof.
  intros w line. apply (update_requires_name w line ["staging"]).
  intros Hin. apply list_elem_of_singleton in Hin. discriminate.
Defined.

(** The other way round: with [--name] given, update reaches its body. *)
Example update_with_name :
  Execute Enclave.configsUpdateCmd
    (Enclave.configsUpdateCmd_Run (exampleWorld false noError))
    [("name", stringValue "qa")] ["staging"]
  = ([EvApi (UpdateConfig "https://api.doppler.com" true "token" "backend"
               "staging" "qa");
      EvPrintConfigInfo exampleConfig false], Returned None).
Proof. vm_compute. reflexivity. Qed.

(** ** Rendering in the earlier file *)

(** X10.  A table is well formed: six headers, one row per record, and every
    row has as many cells as there are headers; an empty list of records
    still prints the headers, with no row. *)
Theorem table_rows_match_headers (w : World) (info : list ConfigInfo)
    (one : ConfigInfo) :
  (exists headers rows,
     Legacy.printConfigsInfo w info false = ([EvPrintTable headers rows], Returned tt)
     /\ length headers = 6%nat /\ length rows = length info
     /\ Forall (fun row => length row = length headers) rows)
  /\ (exists headers row,
        Legacy.printConfigInfo w one false
        = ([EvPrintTable headers [row]], Returned tt)
        /\ length row = length headers)
  /\ Legacy.printConfigsInfo w [] false
     = ([EvPrintTable Legacy.tableHeaders []], Returned tt).
Proof.
  split_and!.
  - exists Legacy.tableHeaders, (map Legacy.configRow info).
    rewrite printConfigsInfo_table, length_map. split_and!; try done.
    by apply Forall_map, Forall_true.
  - by exists Legacy.tableHeaders, (Legacy.configRow one).
  - done.
Qed.

(** X11.  When [json.Marshal] fails on the payload under [--json], the
    commands of the earlier file print nothing: the error is reported, after
    the requests were sent (for delete: after the deletion), and the process
    exits with status 1. *)
Theorem json_failure_prints_nothing (w : World) (given : list (string * Value))
    (cmd : Command) (args : list string) (e : string) :
  flagBool cmd "json" = true ->
  let lc := configuration_LocalConfig w cmd in
  let config := resolved args (Config lc) in
  let failed := fun calls : list ApiCall =>
    (map EvApi calls ++ [EvErr (Some e) []], Exited 1) : M unit in
  (ParseFlags given Legacy.configsCmd = Some cmd ->
   let c := GetAPIConfigs (Key lc) (Project_ lc) in
   (json_Marshal_configs w (legacyConfigsResult w c)).2 = Some e ->
   Legacy.configsCmd_Run w cmd args = failed [c])
  /\ (ParseFlags given Legacy.configsGetCmd = Some cmd ->
      let c := GetAPIConfig (Key lc) (Project_ lc) config in
      (json_Marshal_config w (legacyConfigResult w c)).2 = Some e ->
      Legacy.configsGetCmd_Run w cmd args = failed [c])
  /\ (ParseFlags given Legacy.configsCreateCmd = Some cmd ->
      flagBool cmd "silent" = false ->
      let c := CreateAPIConfig (Key lc) (Project_ lc)
                 (resolved args (flagString cmd "name"))
                 (flagString cmd "environment") (flagBool cmd "defaults") in
      (json_Marshal_config w (legacyConfigResult w c)).2 = Some e ->
      Legacy.configsCreateCmd_Run w cmd args = failed [c])
  /\ (ParseFlags given Legacy.configsUpdateCmd = Some cmd ->
      flagBool cmd "silent" = false ->
      let c := UpdateAPIConfig (Key lc) (Project_ lc) config (flagString cmd "name") in
      (json_Marshal_config w (legacyConfigResult w c)).2 = Some e ->
      Legacy.configsUpdateCmd_Run w cmd args = failed [c])
  /\ (ParseFlags given Legacy.configsDeleteCmd = Some cmd ->
      flagBool cmd "silent" = false ->
      let c := GetAPIConfigs (Key lc) (Project_ lc) in
      (json_Marshal_configs w (legacyConfigsResult w c)).2 = Some e ->
      Legacy.configsDeleteCmd_Run w cmd args
      = failed [DeleteAPIConfig (Key lc) (Project_ lc) config; c]).
Proof.
  intros Hjson lc config failed. subst failed. split_and!.
  - intros Hp c He. rewrite (legacy_list_run _ _ _ _ Hp). cbv zeta.
    fold lc c. by rewrite Hjson, printConfigsInfo_json, He.
  - intros Hp c He. rewrite (legacy_get_run _ _ _ _ Hp). cbv zeta.
    fold lc config c. by rewrite Hjson, printConfigInfo_json, He.
  - intros Hp Hs c He. rewrite (legacy_create_run _ _ _ _ Hp). cbv zeta.
    fold lc c. by rewrite Hs, Hjson, printConfigInfo_json, He.
  - intros Hp Hs c He. rewrite (legacy_update_run _ _ _ _ Hp). cbv zeta.
    fold lc config c. by rewrite Hs, Hjson, printConfigInfo_json, He.
  - intros Hp Hs c He. rewrite (legacy_delete_run _ _ _ _ Hp). cbv zeta.
    fold lc config c. by rewrite Hs, Hjson, printConfigsInfo_json, He.
Qed.

Lemma json_failure_prints_nothing_witness :
  let w := brokenMarshalWorld in
  let line := [("json", boolValue true)] in
  let report := EvErr (Some "json: unsupported value") [] in
  Legacy.configsCmd_Run w (parsedCommand line Legacy.configsCmd) []
  = ([EvApi (GetAPIConfigs "key" "backend"); report], Exited 1)
  /\ Legacy.configsGetCmd_Run w (parsedCommand line Legacy.configsGetCmd) ["staging"]
     = ([EvApi (GetAPIConfig "key" "backend" "staging"); report], Exited 1)
  /\ Legacy.configsCreateCmd_Run w (parsedCommand line Legacy.configsCreateCmd)
       ["backend_dev"]
     = ([EvApi (CreateAPIConfig "key" "backend" "backend_dev" "" true); report],
        Exited 1)
  /\ Legacy.configsUpdateCmd_Run w (parsedCommand line Legacy.configsUpdateCmd)
       ["staging"]
     = ([EvApi (UpdateAPIConfig "key" "backend" "staging" ""); report], Exited 1)
  /\ Legacy.configsDeleteCmd_Run w (parsedCommand line Legacy.configsDeleteCmd)
       ["staging"]
     = ([EvApi (DeleteAPIConfig "key" "backend" "staging");
         EvApi (GetAPIConfigs "key" "backend"); report], Exited 1).
Proof.
  intros w line report.
  pose proof (fun cmd args => json_failure_prints_nothing w line cmd args
                "json: unsupported value") as H.
  split_and!.
  - exact (proj1 (H (parsedCommand line Legacy.configsCmd) [] eq_refl)
             eq_refl eq_refl).
  - exact (proj1 (proj2 (H (parsedCommand line Legacy.configsGetCmd) ["staging"]
                    eq_refl)) eq_refl eq_refl).
  - exact (proj1 (proj2 (proj2 (H (parsedCommand line Legacy.configsCreateCmd)
                    ["backend_dev"] eq_refl))) eq_refl eq_refl eq_refl).
  - exact (proj1 (proj2 (proj2 (proj2 (H (parsedCommand line Legacy.configsUpdateCmd)
                    ["staging"] eq_refl)))) eq_refl eq_refl eq_refl).
  - exact (proj2 (proj2 (proj2 (proj2 (H (parsedCommand line Legacy.configsDeleteCmd)
                    ["staging"] eq_refl)))) eq_refl eq_refl eq_refl).
Defined.

(** ** [--silent] and the prompt *)

Lemma printConfigsInfo_no_prompt (w : World) (info : list ConfigInfo) (jsonFlag : bool) :
  filter isPrompt (trace (Legacy.printConfigsInfo w info jsonFlag)) = [].
Proof.
  destruct jsonFlag.
  - rewrite printConfigsInfo_json. by destruct (json_Marshal_configs w info).2.
  - by rewrite printConfigsInfo_table.
Qed.

(** X12.  Under [--silent] the create, update and delete commands of the
    earlier file do nothing but send their request and return: nothing is
    printed, [json.Marshal] plays no part, and delete does not fetch the
    list. *)
Theorem earlier_silent_sends_only (w : World) (given : list (string * Value))
    (cmd : Command) (args : list string) :
  flagBool cmd "silent" = true ->
  let lc := configuration_LocalConfig w cmd in
  let config := resolved args (Config lc) in
  (ParseFlags given Legacy.configsCreateCmd = Some cmd ->
   Legacy.configsCreateCmd_Run w cmd args
   = ([EvApi (CreateAPIConfig (Key lc) (Project_ lc)
                (resolved args (flagString cmd "name"))
                (flagString cmd "environment") (flagBool cmd "defaults"))],
      Returned tt))
  /\ (ParseFlags given Legacy.configsUpdateCmd = Some cmd ->
      Legacy.configsUpdateCmd_Run w cmd args
      = ([EvApi (UpdateAPIConfig (Key lc) (Project_ lc) config
                   (flagString cmd "name"))], Returned tt))
  /\ (ParseFlags given Legacy.configsDeleteCmd = Some cmd ->
      Legacy.configsDeleteCmd_Run w cmd args
      = ([EvApi (DeleteAPIConfig (Key lc) (Project_ lc) config)], Returned tt)).
Proof.
  intros Hs lc config. split_and!; intros Hp.
  - rewrite (legacy_create_run _ _ _ _ Hp). cbv zeta. by rewrite Hs.
  - rewrite (legacy_update_run _ _ _ _ Hp). cbv zeta. by rewrite Hs.
  - rewrite (legacy_delete_run _ _ _ _ Hp). cbv zeta. by rewrite Hs.
Qed.

Lemma earlier_silent_sends_only_witness :
  let w := brokenMarshalWorld in
  let line := [("silent", boolValue true); ("json", boolValue true)] in
  Legacy.configsCreateCmd_Run w (parsedCommand line Legacy.configsCreateCmd)
    ["backend_dev"]
  = ([EvApi (CreateAPIConfig "key" "backend" "backend_dev" "" true)], Returned tt)
  /\ Legacy.configsUpdateCmd_Run w (parsedCommand line Legacy.configsUpdateCmd)
       ["staging"]
     = ([EvApi (UpdateAPIConfig "key" "backend" "staging" "")], Returned tt)
  /\ Legacy.configsDeleteCmd_Run w (parsedCommand line Legacy.configsDeleteCmd)
       ["staging"]
     = ([EvApi (DeleteAPIConfig "key" "backend" "staging")], Returned tt).
Proof.
  intros w line. split_and!.
  - exact (proj1 (earlier_silent_sends_only w line
             (parsedCommand line Legacy.configsCreateCmd) ["backend_dev"] eq_refl)
             eq_refl).
  - exact (proj1 (proj2 (earlier_silent_sends_only w line
             (parsedCommand line Legacy.configsUpdateCmd) ["staging"] eq_refl))
             eq_refl).
  - exact (proj2 (proj2 (earlier_silent_sends_only w line
             (parsedCommand line Legacy.configsDeleteCmd) ["staging"] eq_refl))
             eq_refl).
Defined.

(** X13.  The delete command of the earlier file asks nobody: on every
    command line that parses, its first event is the delete request and its
    run contains no confirmation prompt. *)
Theorem earlier_delete_is_unconditional (w : World) (given : list (string * Value))
    (cmd : Command) (args : list string) :
  ParseFlags given Legacy.configsDeleteCmd = Some cmd ->
  let lc := configuration_LocalConfig w cmd in
  let run := Legacy.configsDeleteCmd_Run w cmd args in
  head (trace run)
  = Some (EvApi (DeleteAPIConfig (Key lc) (Project_ lc) (resolved args (Config lc))))
  /\ filter isPrompt (trace run) = [].
Proof.
  intros Hp lc run. subst run. rewrite (legacy_delete_run _ _ _ _ Hp). cbv zeta.
  destruct (flagBool cmd "silent"); [done|]. split; [done|]. simpl.
  apply printConfigsInfo_no_prompt.
Qed.

Lemma earlier_delete_is_unconditional_witness :
  let run := Legacy.configsDeleteCmd_Run (exampleWorld false noError)
               Legacy.configsDeleteCmd [] in
  head (trace run) = Some (EvApi (DeleteAPIConfig "key" "backend" "dev"))
  /\ filter isPrompt (trace run) = [].
Proof.
  exact (earlier_delete_is_unconditional (exampleWorld false noError) []
           Legacy.configsDeleteCmd [] eq_refl).
Defined.

(** X14.  In the later file delete prompts at most once, and first: with
    [--yes] there is no prompt at all; without it the run starts with the
    prompt "Delete config <config>", default answer no, and no request
    precedes it. *)
Theorem delete_prompts_first_unless_yes (w : World) (given : list (string * Value))
    (cmd : Command) (args : list string) :
  ParseFlags given Enclave.configsDeleteCmd = Some cmd ->
  let message :=
    "Delete config " +:+ resolved args (Config (configuration_LocalConfig w cmd)) in
  let prompt := EvConfirmationPrompt message false (promptAnswer w message false) in
  exists rest,
    trace (Enclave.configsDeleteCmd_Run w cmd args)
    = (if flagBool cmd "yes" then [] else [prompt]) ++ rest
    /\ filter isPrompt rest = [].
Proof.
  intros Hp message prompt. subst prompt.
  rewrite (delete_run _ _ _ _ Hp). cbv zeta. fold message.
  destruct (flagBool cmd "yes"), (promptAnswer w message false),
    (IsNil (deleteResult w _)), (flagBool cmd "silent"); simpl;
    try (by eexists; split_and!; [reflexivity|done..]);
    destruct (IsNil (configsResult w _).2);
    by eexists; split_and!; [reflexivity|done..].
Qed.

Lemma delete_prompts_first_unless_yes_witness :
  exists rest,
    trace (Enclave.configsDeleteCmd_Run (exampleWorld true noError)
             Enclave.configsDeleteCmd ["staging"])
    = [EvConfirmationPrompt "Delete config staging" false true] ++ rest
    /\ filter isPrompt rest = [].
Proof.
  destruct (delete_prompts_first_unless_yes (exampleWorld true noError) []
              Enclave.configsDeleteCmd ["staging"] eq_refl)
    as (rest & Ht & Hno).
  by exists rest.
Defined.

(** ** The reading commands of the later file *)

(** X15.  The list, get, logs and logs get commands of the later file have
    no [--silent]: after a successful request they render exactly once, and
    what they hand to the renderer is the payload as the API client returned
    it, with the process-wide JSON mode; logs passes the entries in the
    order received together with the number [utils.GetIntFlag(cmd,
    "number", 16)] yielded.  After a failed request they render nothing,
    and logs renders nothing either when [utils.GetIntFlag] rejects
    [--number]. *)
Theorem reading_commands_render_payload (w : World) (given : list (string * Value))
    (cmd : Command) (args : list string) :
  let lc := configuration_LocalConfig w cmd in
  let host := APIHost lc in
  let tls := verify w cmd in
  let json := utils_JSON w in
  let shown := fun m : M unit => filter isRender (trace m) in
  (let r := configsResult w (GetConfigs host tls (Token lc) (Project_ lc)) in
   shown (Enclave.configsCmd_Run w cmd args)
   = if IsNil r.2 then [EvPrintConfigsInfo r.1 json] else [])
  /\ (let r := configResult w (GetConfig host tls (Token lc) (Project_ lc)
                                 (resolved args (Config lc))) in
      shown (Enclave.configsGetCmd_Run w cmd args)
      = if IsNil r.2 then [EvPrintConfigInfo r.1 json] else [])
  /\ (let r := logsResult w (GetConfigLogs host tls (Token lc) (Project_ lc)
                               (Config lc)) in
      shown (Enclave.configsLogsCmd_Run w cmd args)
      = match intFlagAnswer w cmd "number" 16 with
        | inl number => if IsNil r.2 then [EvPrintLogs r.1 number json] else []
        | inr _ => []
        end)
  /\ (ParseFlags given Enclave.configsLogsGetCmd = Some cmd ->
      let r := logResult w (GetConfigLog host tls (Token lc) (Project_ lc)
                              (Config lc) (resolved args (flagString cmd "log"))) in
      shown (Enclave.configsLogsGetCmd_Run w cmd args)
      = if IsNil r.2 then [EvPrintLog r.1 json] else []).
Proof.
  intros lc host tls json shown. subst shown. split_and!.
  - rewrite list_run. cbv zeta. by destruct (IsNil _).
  - rewrite get_run. cbv zeta. by destruct (IsNil _).
  - rewrite logs_run. cbv zeta.
    destruct (intFlagAnswer w cmd "number" 16); [|done]. by destruct (IsNil _).
  - intros Hp. rewrite (logsGet_run _ _ _ _ Hp). cbv zeta. by destruct (IsNil _).
Qed.

Lemma reading_commands_render_payload_witness :
  filter isRender
    (trace (Enclave.configsLogsGetCmd_Run (exampleWorld false noError)
              Enclave.configsLogsGetCmd ["log-9"]))
  = [EvPrintLog (mkLog "log-1") false].
Proof.
  exact (proj2 (proj2 (proj2 (reading_commands_render_payload
                                (exampleWorld false noError) []
                                Enclave.configsLogsGetCmd ["log-9"]))) eq_refl).
Defined.

(** * The release script *)

(** What counts as a clean workspace: a status output with nothing but
    newlines in it. *)
Lemma stripTrailingNewlines_nil_iff (s : string) :
  Release.stripTrailingNewlines s = ""
  <-> forall c, hasChar c s = true -> c = Release.newline.
Proof.
  induction s as [|a s IH]; simpl.
  - split; [intros _ c Hc; done | done].
  - destruct (Release.stripTrailingNewlines s) as [|b r] eqn:Hs.
    + destruct (Ascii.eqb_spec a Release.newline) as [->|Hne].
      * split; [|done]. intros _ c Hc.
        apply orb_true_iff in Hc as [Hc|Hc]; [by apply Ascii.eqb_eq in Hc|].
        by apply IH.
      * split; [done|]. intros Hall. destruct Hne. apply Hall.
        by rewrite Ascii.eqb_refl.
    + split; [done|]. intros Hall.
      assert (Hnil : String b r = "") by (apply IH; intros c Hc; apply Hall;
                                         rewrite Hc; by rewrite orb_true_r).
      done.
Qed.

(** X16.  The script changes nothing before its three checks have passed.
    When the workspace is not clean (the status output, trailing newlines
    dropped, is not empty), when no argument is given, or when the first
    argument starts with [v], the run is [git status], one line of
    explanation, and exit status 1; otherwise the first changing command is
    [git push].  Only the first character of the version is looked at. *)
Theorem release_checks_before_changing (h : Release.Host) (argv : list string) :
  let clean := (Release.stripTrailingNewlines (Release.porcelain h) =? "")%string in
  let given := negb (Z.of_nat (length argv) =? 0) in
  let prefixed := (String.substring 0 1 (nth 0 argv "") =? "v")%string in
  let run := Release.release h argv in
  if clean && given && negb prefixed
  then head (Release.changes run.1) = Some ["push"]
  else Release.changes run.1 = []
       /\ run.2 = Exited 1
       /\ run.1 = [Release.Git ["status"; "--porcelain"];
                   Release.Echo
                     (if negb clean then "The git workspace must be clean"
                      else if negb given then "You must specify a version"
                      else "Version is incorrect; must match format X.Y.Z")].
Proof.
  intros clean given prefixed run. subst run clean given prefixed.
  unfold Release.release, Release.gitStatusPorcelain.
  destruct (_ =? "")%string; simpl; [|done].
  destruct (Z.of_nat (length argv) =? 0); simpl; [done|].
  destruct (_ =? "v")%string; simpl; [done|].
  unfold Release.git. by destruct (Release.gitExit h ["push"] =? 0).
Qed.

(** X17.  Once the checks have passed, the script announces the version
    ["v" ++ first argument] and runs [git push], [git tag -a V -m V] and
    [git push origin V] in this order, where [V] is that version, the same
    in all three places.  Under [set -e] it stops at the first of them that
    fails and ends with that command's status; it ends with status 0 only
    when all three succeeded. *)
Theorem release_stops_at_first_failure (h : Release.Host) (argv : list string) :
  Release.stripTrailingNewlines (Release.porcelain h) = "" ->
  argv ≠ [] ->
  String.substring 0 1 (nth 0 argv "") ≠ "v" ->
  let V := "v" +:+ nth 0 argv "" in
  let push := ["push"] in
  let tag := ["tag"; "-a"; V; "-m"; V] in
  let pushTag := ["push"; "origin"; V] in
  let status := Release.gitExit h in
  let run := Release.release h argv in
  run.1 = [Release.Git ["status"; "--porcelain"];
           Release.Echo ("Using version " +:+ V); Release.Git push]
          ++ (if status push =? 0
              then Release.Git tag
                   :: (if status tag =? 0 then [Release.Git pushTag] else [])
              else [])
  /\ Release.exitStatus run.2
     = (if negb (status push =? 0) then status push
        else if negb (status tag =? 0) then status tag
        else status pushTag).
Proof.
  intros Hclean Hargs Hv V push tag pushTag status run.
  subst run status. unfold Release.release, Release.gitStatusPorcelain.
  rewrite Hclean. simpl.
  destruct argv as [|a rest]; [done|]. simpl in *.
  apply String.eqb_neq in Hv. rewrite Hv. simpl.
  fold V. unfold Release.git. fold push tag pushTag.
  destruct (Release.gitExit h push =? 0) eqn:Hp; simpl; [|done].
  destruct (Release.gitExit h tag =? 0) eqn:Ht; simpl; [|done].
  destruct (Release.gitExit h pushTag =? 0) eqn:Hq; simpl; [|done].
  by apply Z.eqb_eq in Hq.
Qed.

Lemma release_stops_at_first_failure_witness :
  let h := {| Release.porcelain := "";
              Release.gitExit := fun args =>
                if bool_decide (args = ["push"]) then 0 else 128 |} in
  let run := Release.release h ["1.2.3"; "ignored"] in
  run.1 = [Release.Git ["status"; "--porcelain"];
           Release.Echo "Using version v1.2.3"; Release.Git ["push"];
           Release.Git ["tag"; "-a"; "v1.2.3"; "-m"; "v1.2.3"]]
  /\ Release.exitStatus run.2 = 128.
Proof.
  intros h.
  refine (release_stops_at_first_failure h ["1.2.3"; "ignored"] eq_refl _ _);
    discriminate.
Defined.

(** The release of 1.2.3 on a clean workspace, and two edges of the version
    check: an empty version is let through and tagged [v]; a version that is
    not of the form X.Y.Z is let through as well. *)
Example release_1_2_3 :
  Release.release Release.exampleHost ["1.2.3"]
  = ([Release.Git ["status"; "--porcelain"]; Release.Echo "Using version v1.2.3";
      Release.Git ["push"]; Release.Git ["tag"; "-a"; "v1.2.3"; "-m"; "v1.2.3"];
      Release.Git ["push"; "origin"; "v1.2.3"]], Returned tt).
Proof. vm_compute. reflexivity. Qed.

Example release_empty_version :
  Release.changes (Release.release Release.exampleHost [""]).1
  = [["push"]; ["tag"; "-a"; "v"; "-m"; "v"]; ["push"; "origin"; "v"]].
Proof. vm_compute. reflexivity. Qed.

Example release_v_prefixed :
  Release.release Release.exampleHost ["v1.2.3"]
  = ([Release.Git ["status"; "--porcelain"];
      Release.Echo "Version is incorrect; must match format X.Y.Z"], Exited 1).
Proof. vm_compute. reflexivity. Qed.
